(** * Whisper transcription server (app.py): request lifecycle

    A shallow embedding of the Flask application in [app.py]: the upload
    filename check, the [/transcribe] handler with its temporary file, the
    [/health] handler, and the threaded server that runs handlers
    concurrently.

    Conventions.
    - A Python [str] is modelled by its UTF-8 bytes ([string]). [lower] maps
      [A]..[Z] only: the allowed extensions are ASCII, and the non-ASCII
      characters that Python lowers to ASCII letters (the Kelvin sign to [k],
      the dotted capital I to [i] and a combining dot) give letters that
      occur in no allowed extension, so the verdict of [allowed_file] is the
      same.
    - Exceptions are instances of [Exception], the class the handler
      catches.
    - Floating point clock readings ([time.time()]) are abstracted to [Z]
      ticks supplied by the environment.
    - Calls to [logger] are left out: the logging module swallows its own
      errors, and no handler reads the log back. *)

From stdpp Require Import gmap strings list.
From Stdlib Require Import ZArith Ascii String.

Open Scope string_scope.
Open Scope Z_scope.

(** ** Python string primitives used by [allowed_file] *)

Module Py.

(** [c.lower()] on one ASCII character: [A]..[Z] move to [a]..[z]. *)
Definition lower_char (c : ascii) : ascii :=
  let n := N_of_ascii c in
  if ((65 <=? n) && (n <=? 90))%N then ascii_of_N (n + 32) else c.

(** [s.lower()] *)
Fixpoint lower (s : string) : string :=
  match s with
  | EmptyString => EmptyString
  | String c s' => String (lower_char c) (lower s')
  end.

(** [c in s] for a one-character needle. *)
Fixpoint contains (c : ascii) (s : string) : bool :=
  match s with
  | EmptyString => false
  | String d s' => Ascii.eqb d c || contains c s'
  end.

(** The last occurrence of [sep] cuts [s] in two; [None] when [sep] does
    not occur. *)
Fixpoint cut_last (sep : ascii) (s : string) : option (string * string) :=
  match s with
  | EmptyString => None
  | String c s' =>
      match cut_last sep s' with
      | Some (a, b) => Some (String c a, b)
      | None => if Ascii.eqb c sep then Some (EmptyString, s') else None
      end
  end.

(** [s.rsplit(sep, 1)]: a list of two pieces when [sep] occurs, the whole
    string alone otherwise. *)
Definition rsplit1 (sep : ascii) (s : string) : list string :=
  match cut_last sep s with
  | Some (a, b) => [a; b]
  | None => [s]
  end.

End Py.

(** ** Upload configuration (app.py, lines 55-57) *)

Definition UPLOAD_FOLDER : string := "uploads".

Definition ALLOWED_EXTENSIONS : gset string :=
  {[ "wav"; "mp3"; "m4a"; "flac"; "ogg" ]}.

Definition MAX_CONTENT_LENGTH : Z := 50 * 1024 * 1024.

(** ** [allowed_file] (app.py, lines 66-67)

    [filename.rsplit('.', 1)[1]] raises [IndexError] when the list has one
    element; the [and] only evaluates it when ['.' in filename] holds, and
    then the list has two (lemma [allowed_file_index_in_range]). *)
Definition allowed_file (filename : string) : bool :=
  Py.contains "." filename &&
  match Py.rsplit1 "." filename !! 1%nat with
  | Some ext => bool_decide (Py.lower ext ∈ ALLOWED_EXTENSIONS)
  | None => false
  end.

(** ** More Python library functions *)

Module PyOs.

Definition startswith (c : ascii) (s : string) : bool :=
  match s with
  | String d _ => Ascii.eqb d c
  | EmptyString => false
  end.

Fixpoint endswith (c : ascii) (s : string) : bool :=
  match s with
  | EmptyString => false
  | String d EmptyString => Ascii.eqb d c
  | String _ s' => endswith c s'
  end.

(** [os.path.join(a, b)] of posixpath: an absolute [b] replaces [a]; no
    separator is added after an empty [a] or one that ends with it. *)
Definition path_join (a b : string) : string :=
  if startswith "/" b then b
  else if String.eqb a "" || endswith "/" a then a ++ b
  else a ++ "/" ++ b.

End PyOs.

(** ** Values exchanged with the outside *)

(** What [jsonify] serialises. Python floats (durations, uptime) appear as
    [JNum] over the abstract clock unit. *)
#[warnings="-register-all"] Inductive JSON : Type :=
| JNull
| JBool (b : bool)
| JNum (n : Z)
| JStr (s : string)
| JArr (items : list JSON)
| JObj (fields : list (string * JSON)).

(** The keys of a JSON object, in insertion order. *)
Definition keys (j : JSON) : list string :=
  match j with
  | JObj fields => fields.*1
  | _ => []
  end.

(** [j[k]] for an object [j]. *)
Definition field (k : string) (j : JSON) : option JSON :=
  match j with
  | JObj fields => snd <$> List.find (fun kv => String.eqb (fst kv) k) fields
  | _ => None
  end.

(** An instance of a subclass of Python's [Exception]; [str(e)] is its
    message. *)
Record Exn : Type := mkExn { exn_class : string; exn_msg : string }.

Definition str_exn (e : Exn) : string := exn_msg e.

(** werkzeug's [FileStorage]: one part of the multipart form. *)
Record FileStorage : Type := mkFileStorage {
  filename : string;
  content_type : string;
  stream : list Byte.byte
}.

(** Flask's [request], as far as the handler reads it. *)
Record Request : Type := mkRequest {
  files : gmap string FileStorage;
  content_length : Z
}.

(** What a view function returns: [jsonify(body), status]. *)
Record Response : Type := mkResponse { status : Z; body : JSON }.

(** The dictionary [model.transcribe] returns. *)
Record TranscriptionResult : Type := mkResult {
  text : string;
  segments : list JSON;
  language : string
}.

(** The handle [whisper.load_model(name, device)] returns. *)
Record Model : Type := mkModel { model_name : string; model_device : string }.

(** Module-level names bound while app.py is imported (lines 45-51). View
    functions read them; none declares [global], so none can rebind them. *)
Record Globals : Type := mkGlobals {
  DEVICE : string;
  model : Model;
  start_time : Z
}.

(** ** The environment of the process *)

(** What [file.save(path)] may do. *)
Inductive SaveOutcome : Type :=
| SaveWrites
| SaveRaises (e : Exn)
| SaveLost.

(** Everything app.py takes from its platform and libraries. *)
Record Env : Type := mkEnv {
  (* torch.cuda *)
  cuda_is_available : bool;
  cuda_device_count : Z;
  cuda_get_device_name : Z -> string;
  cuda_memory_allocated : Z -> Z;
  cuda_memory_reserved : Z -> Z;
  (* time.time() and datetime.now().isoformat(), by reading number *)
  clock : nat -> Z;
  isoformat_now : nat -> string;
  (* werkzeug.utils.secure_filename *)
  secure_filename : string -> string;
  (* traceback.format_exc() while handling [e] *)
  format_exc : Exn -> string;
  (* f"{n/1024**2:.2f}MB" *)
  format_MB : Z -> string;
  (* the inference engine: handle, path, bytes found at the path *)
  engine : Model -> string -> option (list Byte.byte) -> Exn + TranscriptionResult;
  (* the file system's refusals *)
  save_outcome : string -> SaveOutcome;
  remove_refused : string -> option Exn
}.

(** The mutable state the handlers act on. *)
Record World : Type := mkWorld {
  fs_files : gmap string (list Byte.byte);
  fs_dirs : gset string;
  engine_log : list string;
  ticks : nat
}.

Definition set_files (f : gmap string (list Byte.byte)) (w : World) : World :=
  mkWorld f (fs_dirs w) (engine_log w) (ticks w).

Definition set_dirs (d : gset string) (w : World) : World :=
  mkWorld (fs_files w) d (engine_log w) (ticks w).

Definition log_engine_call (path : string) (w : World) : World :=
  mkWorld (fs_files w) (fs_dirs w) (engine_log w ++ [path]) (ticks w).

Definition tick (w : World) : World :=
  mkWorld (fs_files w) (fs_dirs w) (engine_log w) (S (ticks w)).

(** [os.path.exists(p)] *)
Definition path_exists (p : string) (w : World) : bool :=
  bool_decide (is_Some (fs_files w !! p)) || bool_decide (p ∈ fs_dirs w).

(** ** Programs: the calls a view function makes, in order *)

Inductive Op : Type -> Type :=
| TimeTime : Op Z
| DatetimeNow : Op string
| OsPathExists (p : string) : Op bool
| OsMakedirs (p : string) : Op (Exn + unit)
| FileSave (f : FileStorage) (p : string) : Op (Exn + unit)
| OsPathGetsize (p : string) : Op (Exn + Z)
| OsRemove (p : string) : Op (Exn + unit)
| ModelTranscribe (m : Model) (p : string) : Op (Exn + TranscriptionResult).

Inductive Prog (A : Type) : Type :=
| Ret (a : A)
| Raise (e : Exn)
| Vis {X : Type} (o : Op X) (k : X -> Prog A).

Arguments Ret {A} a.
Arguments Raise {A} e.
Arguments Vis {A X} o k.

Fixpoint bind {A B : Type} (m : Prog A) (f : A -> Prog B) : Prog B :=
  match m with
  | Ret a => f a
  | Raise e => Raise e
  | Vis o k => Vis o (fun x => bind (k x) f)
  end.

#[global] Instance Prog_ret : MRet Prog := fun _ a => Ret a.
#[global] Instance Prog_bind : MBind Prog := fun _ _ f m => bind m f.

(** [try: m  except Exception as e: h e] *)
Fixpoint try_except {A : Type} (m : Prog A) (h : Exn -> Prog A) : Prog A :=
  match m with
  | Ret a => Ret a
  | Raise e => h e
  | Vis o k => Vis o (fun x => try_except (k x) h)
  end.

(** A call that cannot raise. *)
Definition call {X : Type} (o : Op X) : Prog X := Vis o Ret.

(** A call whose failure is raised in the caller. *)
Definition call_raising {X : Type} (o : Op (Exn + X)) : Prog X :=
  Vis o (fun r => match r with inl e => Raise e | inr x => Ret x end).

(** The operating system and library calls, one by one. *)

(** [os.makedirs(p)] *)
Definition os_makedirs (p : string) (w : World) : (Exn + unit) * World :=
  if path_exists p w
  then (inl (mkExn "FileExistsError" p), w)
  else (inr (), set_dirs ({[p]} ∪ fs_dirs w) w).

(** [f.save(p)] *)
Definition file_save (env : Env) (f : FileStorage) (p : string) (w : World)
  : (Exn + unit) * World :=
  match save_outcome env p with
  | SaveWrites => (inr (), set_files (<[p := stream f]> (fs_files w)) w)
  | SaveRaises e => (inl e, w)
  | SaveLost => (inr (), w)
  end.

(** [os.path.getsize(p)] *)
Definition os_path_getsize (p : string) (w : World) : (Exn + Z) * World :=
  match fs_files w !! p with
  | Some bytes => (inr (Z.of_nat (List.length bytes)), w)
  | None =>
      if bool_decide (p ∈ fs_dirs w) then (inr 0, w)
      else (inl (mkExn "FileNotFoundError" p), w)
  end.

(** [os.remove(p)] *)
Definition os_remove (env : Env) (p : string) (w : World)
  : (Exn + unit) * World :=
  match fs_files w !! p with
  | None => (inl (mkExn "FileNotFoundError" p), w)
  | Some _ =>
      match remove_refused env p with
      | Some e => (inl e, w)
      | None => (inr (), set_files (delete p (fs_files w)) w)
      end
  end.

(** [m.transcribe(p)], from call to return. *)
Definition model_transcribe (env : Env) (m : Model) (p : string) (w : World)
  : (Exn + TranscriptionResult) * World :=
  (engine env m p (fs_files w !! p), log_engine_call p w).

(** What one call does to the world. *)
Definition exec_op (env : Env) {X : Type} (o : Op X) (w : World) : X * World :=
  match o in Op X return X * World with
  | TimeTime => (clock env (ticks w), tick w)
  | DatetimeNow => (isoformat_now env (ticks w), tick w)
  | OsPathExists p => (path_exists p w, w)
  | OsMakedirs p => os_makedirs p w
  | FileSave f p => file_save env f p w
  | OsPathGetsize p => os_path_getsize p w
  | OsRemove p => os_remove env p w
  | ModelTranscribe m p => model_transcribe env m p w
  end.

(** One handler run from start to end, alone. [inl e] is an exception that
    leaves the view function. *)
Fixpoint run (env : Env) {A : Type} (m : Prog A) (w : World) : (Exn + A) * World :=
  match m with
  | Ret a => (inr a, w)
  | Raise e => (inl e, w)
  | Vis o k => let '(x, w') := exec_op env o w in run env (k x) w'
  end.

(** ** Start-up (app.py, lines 45-64) *)

Definition whisper_load_model (name device : string) : Model :=
  mkModel name device.

(** The module body: device choice, model loading, and the upload folder
    made if it is missing. *)
Definition startup (env : Env) : Prog Globals :=
  let DEVICE := if cuda_is_available env then "cuda" else "cpu" in
  start_time ← call TimeTime;
  let model := whisper_load_model "turbo" DEVICE in
  loaded ← call TimeTime;
  let load_time := loaded - start_time in
  folder ← call (OsPathExists UPLOAD_FOLDER);
  (if folder : bool then mret ()
   else call_raising (OsMakedirs UPLOAD_FOLDER));;
  mret (mkGlobals DEVICE model start_time).

(** ** [transcribe_audio] (app.py, lines 69-157) *)

(** Lines 96-97: where the upload is stored. *)
Definition stored_path (env : Env) (file : FileStorage) : string :=
  PyOs.path_join UPLOAD_FOLDER (secure_filename env (filename file)).

(** Lines 147-152: remove the file if it is there; a bare [except] swallows
    whatever the attempt raises. *)
Definition cleanup_after_error (filepath : string) : Prog unit :=
  try_except
    (present ← call (OsPathExists filepath);
     if present : bool then call_raising (OsRemove filepath) else mret ())
    (fun _ => mret ()).

(** Lines 89-139: the body of the [try] block. [start_time] is the local
    of line 72. The pure assignments of lines 96-97 sit inside the [try] in
    the source; they cannot raise, so [filepath] is passed in. *)
Definition transcribe_audio_try (g : Globals) (file : FileStorage)
    (filepath : string) (start_time : Z) : Prog Response :=
  folder ← call (OsPathExists UPLOAD_FOLDER);
  (if folder : bool then mret ()
   else call_raising (OsMakedirs UPLOAD_FOLDER));;
  call_raising (FileSave file filepath);;
  saved ← call (OsPathExists filepath);
  (if saved : bool
   then file_size ← call_raising (OsPathGetsize filepath); mret ()
   else Raise (mkExn "FileNotFoundError"
                 ("파일이 저장되지 않았습니다: " ++ filepath)));;
  transcribe_start ← call TimeTime;
  result ← call_raising (ModelTranscribe (model g) filepath);
  transcribe_end ← call TimeTime;
  let transcribe_time := transcribe_end - transcribe_start in
  call_raising (OsRemove filepath);;
  request_end ← call TimeTime;
  let total_time := request_end - start_time in
  mret (mkResponse 200 (JObj [
    ("text", JStr (text result));
    ("segments", JArr (segments result));
    ("language", JStr (language result));
    ("processing_time", JObj [
       ("transcribe", JNum transcribe_time);
       ("total", JNum total_time)])])).

(** Lines 141-157: the [except Exception as e] block. *)
Definition transcribe_audio_except (env : Env) (filepath : string) (e : Exn)
  : Prog Response :=
  cleanup_after_error filepath;;
  mret (mkResponse 500 (JObj [
    ("error", JStr (str_exn e));
    ("traceback", JStr (format_exc env e))])).

(** The view function. The local [start_time] of line 72 shadows the
    module-level one. *)
Definition transcribe_audio (env : Env) (g : Globals) (request : Request)
  : Prog Response :=
  start_time ← call TimeTime;
  match files request !! "file" with
  | None => mret (mkResponse 400 (JObj [("error", JStr "No file provided")]))
  | Some file =>
      if String.eqb (filename file) "" then
        mret (mkResponse 400 (JObj [("error", JStr "No file selected")]))
      else if negb (allowed_file (filename file)) then
        mret (mkResponse 400 (JObj [("error", JStr "File type not allowed")]))
      else
        let filepath := stored_path env file in
        try_except
          (transcribe_audio_try g file filepath start_time)
          (transcribe_audio_except env filepath)
  end.

(** ** [health_check] (app.py, lines 159-185) *)

Definition health_check (env : Env) (g : Globals) : Prog Response :=
  let gpu_info := JObj [
    ("available", JBool (cuda_is_available env));
    ("device_count",
       JNum (if cuda_is_available env then cuda_device_count env else 0));
    ("device_name",
       if cuda_is_available env then JStr (cuda_get_device_name env 0)
       else JNull)] in
  let memory_info :=
    if cuda_is_available env then
      JObj [("allocated", JStr (format_MB env (cuda_memory_allocated env 0)));
            ("cached", JStr (format_MB env (cuda_memory_reserved env 0)))]
    else JObj [] in
  now ← call TimeTime;
  timestamp ← call DatetimeNow;
  mret (mkResponse 200 (JObj [
    ("status", JStr "healthy");
    ("model", JStr "whisper-large");
    ("device", JStr (DEVICE g));
    ("gpu_info", gpu_info);
    ("memory_info", memory_info);
    ("uptime", JNum (now - start_time g));
    ("timestamp", JStr timestamp)])).

(** ** Routing *)

Inductive HttpRequest : Type :=
| POST_transcribe (request : Request)
| GET_health.

Definition dispatch (env : Env) (g : Globals) (r : HttpRequest) : Prog Response :=
  match r with
  | POST_transcribe request => transcribe_audio env g request
  | GET_health => health_check env g
  end.

(** The server process between requests: the module globals and the world. *)
Record Server : Type := mkServer { globals : Globals; world : World }.

(** Serving one request to completion. *)
Definition serve (env : Env) (r : HttpRequest) (s : Server)
  : (Exn + Response) * Server :=
  let '(out, w') := run env (dispatch env (globals s) r) (world s) in
  (out, mkServer (globals s) w').

(** Serving a list of requests one after the other. *)
Fixpoint serve_all (env : Env) (rs : list HttpRequest) (s : Server)
  : list (Exn + Response) * Server :=
  match rs with
  | [] => ([], s)
  | r :: rs' =>
      let '(out, s') := serve env r s in
      let '(outs, s'') := serve_all env rs' s' in
      (out :: outs, s'')
  end.

(** The process right after import: globals from [startup], the world it
    left. An exception during import leaves no server. *)
Definition boot (env : Env) (w : World) : option Server :=
  match run env (startup env) w with
  | (inr g, w') => Some (mkServer g w')
  | (inl _, _) => None
  end.

(** ** The request size limit (app.py, lines 57 and 64) *)

(** [app.config['MAX_CONTENT_LENGTH']] after line 64. *)
Definition app_config_MAX_CONTENT_LENGTH : option Z := Some MAX_CONTENT_LENGTH.

(** What the client gets from [POST /transcribe]. *)
Inductive Outcome : Type :=
| OversizeError
| Handled (r : Response).

(** Modelled from the spec: the boundary layer that enforces the maximum
    body size is the web framework, which is not part of app.py; app.py only
    configures the limit. Following section 6 of the specification, a request
    whose body exceeds the configured maximum is rejected with an oversize
    error and the view function does not run; any other request is passed to
    the view function. *)
Definition boundary_layer (limit : option Z) (request : Request)
    (view : Prog Response) : Prog Outcome :=
  match limit with
  | Some max =>
      if max <? content_length request then mret OversizeError
      else r ← view; mret (Handled r)
  | None => r ← view; mret (Handled r)
  end.

Definition post_transcribe (env : Env) (g : Globals) (request : Request)
  : Prog Outcome :=
  boundary_layer app_config_MAX_CONTENT_LENGTH request
    (transcribe_audio env g request).

(** ** The threaded server (app.py, line 189: [threaded=True])

    Every request gets a thread of its own that runs the view function. A
    thread advances by one call at a time; threads interleave between calls.
    The engine call is not atomic: a thread enters it and leaves it in two
    separate steps, and is in flight in between. app.py holds no lock. *)

Inductive Thread : Type :=
| Running (p : Prog Response)
| InEngine (m : Model) (path : string)
           (k : Exn + TranscriptionResult -> Prog Response)
| Finished (out : Exn + Response).

Definition is_engine_call {X : Type} (o : Op X) : bool :=
  match o with
  | ModelTranscribe _ _ => true
  | _ => false
  end.

Inductive thread_step (env : Env) : Thread -> World -> Thread -> World -> Prop :=
| step_return (r : Response) (w : World) :
    thread_step env (Running (Ret r)) w (Finished (inr r)) w
| step_raise (e : Exn) (w : World) :
    thread_step env (Running (Raise e)) w (Finished (inl e)) w
| step_call {X : Type} (o : Op X) (k : X -> Prog Response) (w : World) :
    is_engine_call o = false ->
    thread_step env (Running (Vis o k)) w
      (Running (k (exec_op env o w).1)) (exec_op env o w).2
| step_engine_enter (m : Model) (p : string) k (w : World) :
    thread_step env (Running (Vis (ModelTranscribe m p) k)) w
      (InEngine m p k) (log_engine_call p w)
| step_engine_leave (m : Model) (p : string) k (w : World) :
    thread_step env (InEngine m p k) w
      (Running (k (engine env m p (fs_files w !! p)))) w.

(** The scheduler picks any thread of the pool. *)
Inductive step (env : Env) : list Thread * World -> list Thread * World -> Prop :=
| step_thread (i : nat) (t t' : Thread) (pool : list Thread) (w w' : World) :
    pool !! i = Some t ->
    thread_step env t w t' w' ->
    step env (pool, w) (<[i := t']> pool, w').

Definition in_engine (t : Thread) : bool :=
  match t with
  | InEngine _ _ _ => true
  | _ => false
  end.

(** How many engine invocations are in flight. *)
Definition in_flight (pool : list Thread) : nat :=
  List.length (List.filter in_engine pool).

(** One thread per accepted request. *)
Definition spawn (env : Env) (g : Globals) (rs : list HttpRequest) : list Thread :=
  (fun r => Running (dispatch env g r)) <$> rs.

(** A thread runs on its own up to its next entry into the engine, or to its
    end. *)
Fixpoint run_to_engine (env : Env) (p : Prog Response) (w : World)
  : Thread * World :=
  match p with
  | Ret r => (Finished (inr r), w)
  | Raise e => (Finished (inl e), w)
  | Vis o k =>
      match o in Op X return (X -> Prog Response) -> Thread * World with
      | ModelTranscribe m path => fun k => (InEngine m path k, log_engine_call path w)
      | o' => fun k => run_to_engine env (k (exec_op env o' w).1) (exec_op env o' w).2
      end k
  end.

(** The request passes the checks of lines 76-87 and [file.save] writes its
    upload. *)
Definition gets_stored (env : Env) (request : Request) : Prop :=
  exists file,
    files request !! "file" = Some file /\
    filename file <> "" /\
    allowed_file (filename file) = true /\
    save_outcome env (stored_path env file) = SaveWrites.

(** ** Sample data for the examples *)

Module Sample.

(** A CPU-only host whose engine answers, whose file system cooperates. *)
Definition env : Env := {|
  cuda_is_available := false;
  cuda_device_count := 0;
  cuda_get_device_name := fun _ => "";
  cuda_memory_allocated := fun _ => 0;
  cuda_memory_reserved := fun _ => 0;
  clock := fun n => Z.of_nat n;
  isoformat_now := fun _ => "2024-05-01T12:00:00";
  secure_filename := fun name => name;
  format_exc := fun e => "Traceback (most recent call last): " ++ exn_msg e;
  format_MB := fun _ => "0.00MB";
  engine := fun _ _ _ => inr (mkResult "hello" [] "en");
  save_outcome := fun _ => SaveWrites;
  remove_refused := fun _ => None
|}.

Definition with_engine
    (e : Model -> string -> option (list Byte.byte) -> Exn + TranscriptionResult)
    (v : Env) : Env :=
  mkEnv (cuda_is_available v) (cuda_device_count v) (cuda_get_device_name v)
    (cuda_memory_allocated v) (cuda_memory_reserved v) (clock v)
    (isoformat_now v) (secure_filename v) (format_exc v) (format_MB v)
    e (save_outcome v) (remove_refused v).

Definition with_remove_refused (r : string -> option Exn) (v : Env) : Env :=
  mkEnv (cuda_is_available v) (cuda_device_count v) (cuda_get_device_name v)
    (cuda_memory_allocated v) (cuda_memory_reserved v) (clock v)
    (isoformat_now v) (secure_filename v) (format_exc v) (format_MB v)
    (engine v) (save_outcome v) r.

(** The engine raises on every input. *)
Definition env_engine_raises : Env :=
  with_engine (fun _ _ _ => inl (mkExn "RuntimeError" "CUDA out of memory")) env.

(** The engine raises and the file system refuses to remove files. *)
Definition env_remove_refused : Env :=
  with_remove_refused
    (fun p => Some (mkExn "PermissionError" p)) env_engine_raises.

Definition globals : Globals :=
  mkGlobals "cpu" (whisper_load_model "turbo" "cpu") 0.

Definition world : World := mkWorld ∅ {[UPLOAD_FOLDER]} [] 0.

Definition upload (name : string) (bytes : list Byte.byte) : Request :=
  mkRequest {["file" := mkFileStorage name "audio/wav" bytes]}
            (Z.of_nat (List.length bytes)).

Definition first_upload : Request := upload "a.wav" [Byte.x01].
Definition second_upload : Request := upload "a.wav" [Byte.x02; Byte.x03].
Definition text_upload : Request := upload "notes.txt" [Byte.x68; Byte.x69].

End Sample.
(** ** What a program can do, whatever its calls return *)

(** [prog_all Qop Qret Qraise m]: on every path through [m], every call
    satisfies [Qop], every returned value [Qret], every exception that
    leaves [m] satisfies [Qraise]. *)
Fixpoint prog_all {A : Type} (Qop : forall X : Type, Op X -> Prop)
    (Qret : A -> Prop) (Qraise : Exn -> Prop) (m : Prog A) : Prop :=
  match m with
  | Ret a => Qret a
  | Raise e => Qraise e
  | Vis o k => Qop _ o /\ forall x, prog_all Qop Qret Qraise (k x)
  end.

(** The same for a thread, at whatever point it is. *)
Definition thread_all (Qop : forall X : Type, Op X -> Prop)
    (Qret : Response -> Prop) (Qraise : Exn -> Prop) (t : Thread) : Prop :=
  match t with
  | Running p => prog_all Qop Qret Qraise p
  | InEngine m path k =>
      Qop _ (ModelTranscribe m path) /\ forall x, prog_all Qop Qret Qraise (k x)
  | Finished (inr r) => Qret r
  | Finished (inl e) => Qraise e
  end.

(** The call writes and removes files at [paths] only. *)
Definition touches_only (paths : string -> Prop) (X : Type) (o : Op X) : Prop :=
  match o with
  | FileSave _ p => paths p
  | OsRemove p => paths p
  | _ => True
  end.

(** The call is not a call of the engine. *)
Definition not_engine (X : Type) (o : Op X) : Prop := is_engine_call o = false.

(** The paths at which a request may store its upload. *)
Definition request_paths (env : Env) (r : HttpRequest) (q : string) : Prop :=
  match r with
  | POST_transcribe request =>
      exists file, files request !! "file" = Some file /\ q = stored_path env file
  | GET_health => False
  end.


(** More sample environments: faults of the file system alone. *)

Module Faulty.

Definition with_save_outcome (s : string -> SaveOutcome) (v : Env) : Env :=
  mkEnv (cuda_is_available v) (cuda_device_count v) (cuda_get_device_name v)
    (cuda_memory_allocated v) (cuda_memory_reserved v) (clock v)
    (isoformat_now v) (secure_filename v) (format_exc v) (format_MB v)
    (engine v) s (remove_refused v).


(** [file.save] returns and leaves no file. *)
Definition env_save_lost : Env :=
  with_save_outcome (fun _ => SaveLost) Sample.env.

(** The engine answers, but files cannot be removed. *)
Definition env_remove_refused : Env :=
  Sample.with_remove_refused
    (fun p => Some (mkExn "PermissionError" p)) Sample.env.

(** An upload without extension. *)
Definition bare_upload : Request := Sample.upload "wav" [Byte.x01].

(** An upload with an empty filename. *)
Definition unnamed_upload : Request := Sample.upload "" [Byte.x01].

(** A request without a [file] part. *)
Definition empty_request : Request := mkRequest ∅ 0.

End Faulty.

(** * Properties *)

(** ** Facts about the string primitives *)

Section StringFacts.

Lemma lower_char_dot (c : ascii) :
  Ascii.eqb (Py.lower_char c) "." = Ascii.eqb c ".".
Proof.
  destruct c as [[] [] [] [] [] [] [] []]; reflexivity.
Qed.

Lemma lower_app (a b : string) :
  Py.lower (a ++ b) = Py.lower a ++ Py.lower b.
Proof.
  induction a as [|c a IH]; simpl; [reflexivity | now rewrite IH].
Qed.

Lemma contains_lower_dot (s : string) :
  Py.contains "." (Py.lower s) = Py.contains "." s.
Proof.
  induction s as [|c s IH]; simpl; [reflexivity|].
  now rewrite lower_char_dot, IH.
Qed.

Lemma cut_last_None (sep : ascii) (s : string) :
  Py.cut_last sep s = None <-> Py.contains sep s = false.
Proof.
  induction s as [|c s IH]; simpl; [tauto|].
  destruct (Py.cut_last sep s) as [[a b]|].
  - split; [discriminate|].
    intros H. apply orb_false_iff in H as [_ H].
    apply IH in H. discriminate.
  - destruct (Ascii.eqb c sep); simpl; [split; discriminate|].
    split; intros _; [now apply IH | reflexivity].
Qed.

Lemma cut_last_Some (sep : ascii) (s a b : string) :
  Py.cut_last sep s = Some (a, b) ->
  s = a ++ String sep b /\ Py.contains sep b = false.
Proof.
  revert a b. induction s as [|c s IH]; simpl; intros a b H; [discriminate|].
  destruct (Py.cut_last sep s) as [[a' b']|] eqn:E.
  - injection H as <- <-. destruct (IH _ _ eq_refl) as [-> Hb].
    split; [reflexivity | exact Hb].
  - destruct (Ascii.eqb c sep) eqn:Ec; [|discriminate].
    injection H as <- <-. apply Ascii.eqb_eq in Ec as ->.
    split; [reflexivity | now apply cut_last_None].
Qed.

Lemma cut_last_app (sep : ascii) (a b : string) :
  Py.contains sep b = false ->
  Py.cut_last sep (a ++ String sep b) = Some (a, b).
Proof.
  intros Hb. induction a as [|c a IH]; simpl.
  - apply cut_last_None in Hb. rewrite Hb.
    now rewrite Ascii.eqb_refl.
  - now rewrite IH.
Qed.

(** Strings that agree up to case are cut at the same place. *)
Lemma cut_last_lower (s t : string) :
  Py.lower s = Py.lower t ->
  match Py.cut_last "." s, Py.cut_last "." t with
  | Some (_, x), Some (_, y) => Py.lower x = Py.lower y
  | None, None => True
  | _, _ => False
  end.
Proof.
  revert t. induction s as [|c s IH]; intros [|d t] H; simpl in *;
    try discriminate; [exact I|].
  injection H as Hc Hs. specialize (IH t Hs).
  destruct (Py.cut_last "." s) as [[a x]|], (Py.cut_last "." t) as [[a' y]|];
    try contradiction; [exact IH|].
  rewrite <- (lower_char_dot c), <- (lower_char_dot d), Hc.
  destruct (Ascii.eqb (Py.lower_char d) "."); [exact Hs | exact I].
Qed.

Lemma allowed_no_dot (x : string) :
  x ∈ ALLOWED_EXTENSIONS -> Py.contains "." x = false.
Proof.
  unfold ALLOWED_EXTENSIONS.
  rewrite !elem_of_union, !elem_of_singleton.
  intros [[[[-> | ->] | ->] | ->] | ->]; reflexivity.
Qed.

Lemma allowed_nonempty (x : string) :
  x ∈ ALLOWED_EXTENSIONS -> x <> "".
Proof.
  unfold ALLOWED_EXTENSIONS.
  rewrite !elem_of_union, !elem_of_singleton.
  intros [[[[-> | ->] | ->] | ->] | ->]; discriminate.
Qed.

End StringFacts.

(** The index [[1]] is in range whenever the left operand of [and] holds:
    the [IndexError] branch of [allowed_file] is never taken. *)
Lemma allowed_file_index_in_range (filename : string) :
  Py.contains "." filename = true ->
  exists ext, Py.rsplit1 "." filename !! 1%nat = Some ext.
Proof.
  intros H. unfold Py.rsplit1.
  destruct (Py.cut_last "." filename) as [[a b]|] eqn:E.
  - exists b. reflexivity.
  - apply cut_last_None in E. congruence.
Qed.

Lemma allowed_file_cut (filename : string) :
  allowed_file filename =
  match Py.cut_last "." filename with
  | Some (_, ext) => bool_decide (Py.lower ext ∈ ALLOWED_EXTENSIONS)
  | None => false
  end.
Proof.
  unfold allowed_file, Py.rsplit1.
  destruct (Py.cut_last "." filename) as [[a b]|] eqn:E; simpl.
  - apply cut_last_Some in E as [-> _].
    replace (Py.contains "." (a ++ String "." b)) with true; [reflexivity|].
    clear. induction a as [|c a IH]; simpl; [reflexivity|].
    rewrite <- IH. now rewrite orb_true_r.
  - apply cut_last_None in E. now rewrite E.
Qed.

Example allowed_file_wav : allowed_file "sample.wav" = true.
Proof. reflexivity. Qed.
Example allowed_file_upper : allowed_file "a.b.FlAc" = true.
Proof. reflexivity. Qed.
Example allowed_file_txt : allowed_file "notes.txt" = false.
Proof. reflexivity. Qed.
Example allowed_file_nodot : allowed_file "wav" = false.
Proof. reflexivity. Qed.
Example allowed_file_trailing_dot : allowed_file "wav." = false.
Proof. reflexivity. Qed.

(** C5. [allowed_file] accepts a filename exactly when it has the shape
    [stem.ext] with [ext] non-empty and the lowercase form of [ext] among
    wav, mp3, m4a, flac, ogg; and two filenames that differ only in the case
    of the letters after the separator get the same verdict. *)
Theorem allowed_file_extension_check (filename stem ext ext' : string) :
  (allowed_file filename = true <->
     exists s e, filename = s ++ "." ++ e /\ e <> "" /\
                 Py.lower e ∈ ALLOWED_EXTENSIONS) /\
  (Py.lower ext = Py.lower ext' ->
     allowed_file (stem ++ "." ++ ext) = allowed_file (stem ++ "." ++ ext')).
Proof.
  split.
  - rewrite allowed_file_cut. split.
    + destruct (Py.cut_last "." filename) as [[a b]|] eqn:E; [|discriminate].
      intros H. apply bool_decide_eq_true in H.
      apply cut_last_Some in E as [-> _].
      exists a, b. split; [reflexivity|]. split; [|exact H].
      intros ->. simpl in H. now apply allowed_nonempty in H.
    + intros (s & e & -> & _ & He).
      assert (Hd : Py.contains "." e = false).
      { rewrite <- contains_lower_dot. now apply allowed_no_dot. }
      change (s ++ "." ++ e) with (s ++ String "." e).
      rewrite (cut_last_app _ _ _ Hd). now apply bool_decide_eq_true.
  - intros H. rewrite !allowed_file_cut.
    assert (HL : Py.lower (stem ++ "." ++ ext) = Py.lower (stem ++ "." ++ ext')).
    { rewrite !lower_app. now rewrite H. }
    apply cut_last_lower in HL.
    destruct (Py.cut_last "." (stem ++ "." ++ ext)) as [[a x]|],
             (Py.cut_last "." (stem ++ "." ++ ext')) as [[a' y]|];
      try contradiction; [|reflexivity].
    now rewrite HL.
Qed.

Lemma allowed_file_extension_check_witness :
  Py.lower "WaV" = Py.lower "wav" /\
  allowed_file ("song" ++ "." ++ "WaV") = allowed_file ("song" ++ "." ++ "wav").
Proof.
  split; [reflexivity|].
  apply (proj2 (allowed_file_extension_check "song.WaV" "song" "WaV" "wav")).
  reflexivity.
Defined.

(** ** Running a program *)

Section RunFacts.

Context (env : Env).

Lemma run_bind {A B : Type} (m : Prog A) (f : A -> Prog B) (w : World) :
  run env (m ≫= f) w =
  match run env m w with
  | (inr a, w') => run env (f a) w'
  | (inl e, w') => (inl e, w')
  end.
Proof.
  revert w. induction m as [a|e|X o k IH]; intros w; cbn; try reflexivity.
  destruct (exec_op env o w) as [x w']. apply IH.
Qed.

Lemma run_try_except {A : Type} (m : Prog A) (h : Exn -> Prog A) (w : World) :
  run env (try_except m h) w =
  match run env m w with
  | (inr a, w') => (inr a, w')
  | (inl e, w') => run env (h e) w'
  end.
Proof.
  revert w. induction m as [a|e|X o k IH]; intros w; cbn; try reflexivity.
  destruct (exec_op env o w) as [x w']. apply IH.
Qed.

Lemma path_exists_file (p : string) (c : list Byte.byte) (w : World) :
  fs_files w !! p = Some c -> path_exists p w = true.
Proof.
  intros H. unfold path_exists.
  rewrite bool_decide_eq_true_2; [reflexivity | eauto].
Qed.

Lemma path_exists_stored (p : string) (c : list Byte.byte) (w : World) :
  path_exists p (set_files (<[p := c]> (fs_files w)) w) = true.
Proof.
  unfold path_exists. cbn. rewrite lookup_insert_eq.
  rewrite bool_decide_eq_true_2; [reflexivity | eauto].
Qed.

(** The bare [except] of the clean-up lets nothing out; the file goes away
    when it is there and the file system does not refuse. *)
Lemma run_cleanup_after_error (p : string) (w : World) :
  exists w', run env (cleanup_after_error p) w = (inr (), w') /\
    fs_dirs w' = fs_dirs w /\ engine_log w' = engine_log w /\
    fs_files w' =
      match fs_files w !! p, remove_refused env p with
      | Some _, None => delete p (fs_files w)
      | _, _ => fs_files w
      end.
Proof.
  unfold cleanup_after_error. cbn. unfold path_exists.
  destruct (fs_files w !! p) as [c|] eqn:E; cbn.
  - unfold os_remove. rewrite E.
    destruct (remove_refused env p) as [e|]; cbn; eauto 10.
  - destruct (bool_decide (p ∈ fs_dirs w)); cbn.
    + unfold os_remove. rewrite E. cbn. eauto 10.
    + eauto 10.
Qed.

(** The [except] block always answers 500 with the two diagnostic fields. *)
Lemma run_transcribe_audio_except (p : string) (e : Exn) (w : World) :
  exists w',
    run env (transcribe_audio_except env p e) w =
      (inr (mkResponse 500 (JObj [("error", JStr (str_exn e));
                                  ("traceback", JStr (format_exc env e))])),
       w') /\
    fs_dirs w' = fs_dirs w /\ engine_log w' = engine_log w /\
    fs_files w' =
      match fs_files w !! p, remove_refused env p with
      | Some _, None => delete p (fs_files w)
      | _, _ => fs_files w
      end.
Proof.
  unfold transcribe_audio_except. rewrite run_bind.
  destruct (run_cleanup_after_error p w) as (w' & -> & H).
  exists w'. split; [reflexivity | exact H].
Qed.

(** The [try] block when [file.save] writes the upload: the engine is
    called once, on the bytes just stored; [w1] is the world when that
    call returns. *)
Lemma run_transcribe_audio_try (g : Globals) (file : FileStorage)
    (t0 : Z) (w : World) :
  let p := stored_path env file in
  save_outcome env p = SaveWrites ->
  exists (w1 : World) (ts : Z),
    fs_files w1 = <[p := stream file]> (fs_files w) /\
    engine_log w1 = (engine_log w ++ [p])%list /\
    run env (transcribe_audio_try g file p t0) w =
      match engine env (model g) p (Some (stream file)) with
      | inl e => (inl e, w1)
      | inr result =>
          match remove_refused env p with
          | Some e => (inl e, tick w1)
          | None =>
              (inr (mkResponse 200 (JObj [
                 ("text", JStr (text result));
                 ("segments", JArr (segments result));
                 ("language", JStr (language result));
                 ("processing_time", JObj [
                    ("transcribe", JNum (clock env (ticks w1) - ts));
                    ("total", JNum (clock env (S (ticks w1)) - t0))])])),
               tick (set_files (delete p (fs_files w1)) (tick w1)))
          end
      end.
Proof.
  intros p Hs. unfold transcribe_audio_try. cbn.
  set (w0 := if path_exists UPLOAD_FOLDER w then w
             else set_dirs ({[UPLOAD_FOLDER]} ∪ fs_dirs w) w).
  assert (Hw0 : fs_files w0 = fs_files w /\ engine_log w0 = engine_log w).
  { unfold w0. destruct (path_exists UPLOAD_FOLDER w); split; reflexivity. }
  destruct Hw0 as [Hf0 Hl0].
  set (ws := set_files (<[p := stream file]> (fs_files w0)) w0).
  exists (log_engine_call p (tick ws)), (clock env (ticks ws)).
  split; [cbn; now rewrite Hf0|]. split; [cbn; now rewrite Hl0|].
  assert (Hrest : forall k : unit -> Prog Response,
    run env ((if path_exists UPLOAD_FOLDER w then mret ()
              else call_raising (OsMakedirs UPLOAD_FOLDER)) ≫= k) w
    = run env (k ()) w0).
  { intros k. unfold w0, os_makedirs.
    destruct (path_exists UPLOAD_FOLDER w) eqn:E; cbn; [reflexivity|].
    unfold os_makedirs. rewrite E. reflexivity. }
  rewrite Hrest. cbn. unfold file_save. fold p. rewrite Hs. cbn. fold ws.
  unfold ws at 1. rewrite path_exists_stored. cbn.
  unfold os_path_getsize. unfold ws at 1. cbn.
  rewrite lookup_insert_eq. cbn.
  unfold model_transcribe. cbn. rewrite lookup_insert_eq.
  destruct (engine env (model g) p (Some (stream file))) as [e|result]; cbn;
    [reflexivity|].
  unfold os_remove. cbn. rewrite lookup_insert_eq.
  destruct (remove_refused env p) as [e|]; cbn; reflexivity.
Qed.

End RunFacts.

(** ** [transcribe_audio], one request at a time *)

(** A request that passed the three checks of lines 76-87 runs the
    [try]/[except] of lines 89-157. *)
Lemma transcribe_audio_valid (env : Env) (g : Globals) (request : Request)
    (file : FileStorage) (w : World) :
  files request !! "file" = Some file ->
  filename file <> "" ->
  allowed_file (filename file) = true ->
  run env (transcribe_audio env g request) w =
  run env (try_except
             (transcribe_audio_try g file (stored_path env file)
                (clock env (ticks w)))
             (transcribe_audio_except env (stored_path env file)))
      (tick w).
Proof.
  intros Hf Hn Ha. unfold transcribe_audio. rewrite Hf.
  apply String.eqb_neq in Hn. rewrite Hn, Ha. reflexivity.
Qed.

(** No exception leaves the view function. *)
Lemma transcribe_audio_never_raises (env : Env) (g : Globals)
    (request : Request) (w : World) :
  exists r w', run env (transcribe_audio env g request) w = (inr r, w').
Proof.
  unfold transcribe_audio.
  destruct (files request !! "file") as [file|]; [|cbn; eauto].
  destruct (String.eqb (filename file) ""); [cbn; eauto|].
  destruct (negb (allowed_file (filename file))); [cbn; eauto|].
  change (run env (call TimeTime ≫= ?k) w)
    with (run env (k (clock env (ticks w))) (tick w)).
  cbv beta zeta. rewrite run_try_except.
  destruct (run env _ (tick w)) as [[e|r] w1]; [|eauto].
  destruct (run_transcribe_audio_except env (stored_path env file) e w1)
    as (w' & -> & _). eauto.
Qed.

(** C4. A request without a [file] part, with an empty filename, or with a
    filename that [allowed_file] rejects is answered with status 400; the
    view function then consists of one clock reading and the return, so the
    files, the directories and the list of engine calls are what they were. *)
Theorem validation_failure_400 (env : Env) (g : Globals) (request : Request)
    (w : World) :
  (files request !! "file" = None \/
   exists file, files request !! "file" = Some file /\
     (filename file = "" \/ allowed_file (filename file) = false)) ->
  exists r w',
    transcribe_audio env g request = Vis TimeTime (fun _ => Ret r) /\
    run env (transcribe_audio env g request) w = (inr r, w') /\
    status r = 400 /\
    fs_files w' = fs_files w /\
    fs_dirs w' = fs_dirs w /\
    engine_log w' = engine_log w.
Proof.
  intros H. unfold transcribe_audio.
  destruct H as [-> | (file & -> & [Hn | Ha])].
  - eexists _, _. cbn. repeat split.
  - rewrite Hn. eexists _, _. cbn. repeat split.
  - rewrite Ha. destruct (String.eqb (filename file) "");
      eexists _, _; cbn; repeat split.
Qed.

Lemma validation_failure_400_witness :
  exists r w',
    transcribe_audio Sample.env Sample.globals Sample.text_upload
      = Vis TimeTime (fun _ => Ret r) /\
    run Sample.env
      (transcribe_audio Sample.env Sample.globals Sample.text_upload)
      Sample.world = (inr r, w') /\
    status r = 400 /\
    fs_files w' = fs_files Sample.world /\
    fs_dirs w' = fs_dirs Sample.world /\
    engine_log w' = engine_log Sample.world.
Proof.
  apply (validation_failure_400 Sample.env Sample.globals Sample.text_upload
           Sample.world).
  right. eexists. split; [reflexivity|]. right. reflexivity.
Defined.

(** C6. When the upload has been stored and the engine raises [e], the
    exception is caught: the view function returns (it does not raise), the
    status is 500, and the body has exactly the fields [error] (the message
    of [e]) and [traceback]; it has no [text] field. *)
Theorem engine_exception_500 (env : Env) (g : Globals) (request : Request)
    (file : FileStorage) (e : Exn) (w : World) :
  files request !! "file" = Some file ->
  filename file <> "" ->
  allowed_file (filename file) = true ->
  save_outcome env (stored_path env file) = SaveWrites ->
  engine env (model g) (stored_path env file) (Some (stream file)) = inl e ->
  exists r w',
    run env (transcribe_audio env g request) w = (inr r, w') /\
    status r = 500 /\
    keys (body r) = ["error"; "traceback"] /\
    field "error" (body r) = Some (JStr (str_exn e)) /\
    field "traceback" (body r) = Some (JStr (format_exc env e)) /\
    field "text" (body r) = None.
Proof.
  intros Hf Hn Ha Hs He.
  rewrite (transcribe_audio_valid env g request file w Hf Hn Ha).
  rewrite run_try_except.
  destruct (run_transcribe_audio_try env g file (clock env (ticks w)) (tick w) Hs)
    as (w1 & ts & _ & _ & ->).
  rewrite He.
  destruct (run_transcribe_audio_except env (stored_path env file) e w1)
    as (w' & -> & _).
  eexists _, _. repeat split.
Qed.

Lemma engine_exception_500_witness :
  exists r w',
    run Sample.env_engine_raises
      (transcribe_audio Sample.env_engine_raises Sample.globals
         Sample.first_upload) Sample.world = (inr r, w') /\
    status r = 500 /\
    keys (body r) = ["error"; "traceback"] /\
    field "error" (body r) = Some (JStr "CUDA out of memory") /\
    field "traceback" (body r) =
      Some (JStr "Traceback (most recent call last): CUDA out of memory") /\
    field "text" (body r) = None.
Proof.
  apply (engine_exception_500 Sample.env_engine_raises Sample.globals
           Sample.first_upload
           (mkFileStorage "a.wav" "audio/wav" [Byte.x01])
           (mkExn "RuntimeError" "CUDA out of memory") Sample.world);
    [reflexivity | discriminate | reflexivity | reflexivity | reflexivity].
Defined.

(** C2, as stated, fails: the engine raises, the clean-up of lines 147-152
    runs, the file system refuses the removal, the refusal is swallowed by
    the bare [except], and the 500 response is returned while the upload is
    still in the storage folder. *)
Lemma stored_file_left_behind :
  exists file r w',
    files Sample.first_upload !! "file" = Some file /\
    save_outcome Sample.env_remove_refused
      (stored_path Sample.env_remove_refused file) = SaveWrites /\
    run Sample.env_remove_refused
      (transcribe_audio Sample.env_remove_refused Sample.globals
         Sample.first_upload) Sample.world = (inr r, w') /\
    status r = 500 /\
    fs_files w' !! stored_path Sample.env_remove_refused file
      = Some (stream file).
Proof.
  eexists _, _, _. split; [reflexivity|]. split; [reflexivity|].
  split; [vm_compute; reflexivity|]. split; reflexivity.
Qed.

(** C2, amended. When the upload has been stored and the file system does
    not refuse the removal, the file is gone when the view function returns,
    whether the engine returned (status 200) or raised (status 500): the
    files are then those from before the request, without the stored path. *)
Theorem stored_file_removed_unless_refused (env : Env) (g : Globals)
    (request : Request) (file : FileStorage) (w : World) :
  files request !! "file" = Some file ->
  filename file <> "" ->
  allowed_file (filename file) = true ->
  save_outcome env (stored_path env file) = SaveWrites ->
  remove_refused env (stored_path env file) = None ->
  exists r w',
    run env (transcribe_audio env g request) w = (inr r, w') /\
    status r =
      match engine env (model g) (stored_path env file) (Some (stream file))
      with inl _ => 500 | inr _ => 200 end /\
    fs_files w' !! stored_path env file = None /\
    fs_files w' = delete (stored_path env file) (fs_files w).
Proof.
  intros Hf Hn Ha Hs Hr.
  rewrite (transcribe_audio_valid env g request file w Hf Hn Ha).
  rewrite run_try_except.
  destruct (run_transcribe_audio_try env g file (clock env (ticks w)) (tick w) Hs)
    as (w1 & ts & Hfiles & _ & ->).
  cbn in Hfiles.
  destruct (engine env (model g) (stored_path env file) (Some (stream file)))
    as [e|result].
  - destruct (run_transcribe_audio_except env (stored_path env file) e w1)
      as (w' & -> & _ & _ & Hw').
    rewrite Hfiles, lookup_insert_eq, Hr, delete_insert_eq in Hw'.
    eexists _, _. split; [reflexivity|]. split; [reflexivity|].
    rewrite Hw'. split; [apply lookup_delete_eq | reflexivity].
  - rewrite Hr. eexists _, _. split; [reflexivity|]. split; [reflexivity|].
    cbn. rewrite Hfiles, delete_insert_eq.
    split; [apply lookup_delete_eq | reflexivity].
Qed.

Lemma stored_file_removed_unless_refused_witness :
  exists r w',
    run Sample.env
      (transcribe_audio Sample.env Sample.globals Sample.first_upload)
      Sample.world = (inr r, w') /\
    status r = 200 /\
    fs_files w' !! "uploads/a.wav" = None /\
    fs_files w' = delete "uploads/a.wav" (fs_files Sample.world).
Proof.
  apply (stored_file_removed_unless_refused Sample.env Sample.globals
           Sample.first_upload
           (mkFileStorage "a.wav" "audio/wav" [Byte.x01]) Sample.world);
    [reflexivity | discriminate | reflexivity | reflexivity | reflexivity].
Defined.

(** ** Where uploads are stored *)

Lemma path_join_uploads (name : string) :
  PyOs.path_join UPLOAD_FOLDER name =
  if PyOs.startswith "/" name then name else "uploads/" ++ name.
Proof. reflexivity. Qed.

(** Under the fixed folder, the joined path determines the joined name. *)
Lemma path_join_uploads_inj (a b : string) :
  PyOs.path_join UPLOAD_FOLDER a = PyOs.path_join UPLOAD_FOLDER b -> a = b.
Proof.
  rewrite !path_join_uploads.
  destruct (PyOs.startswith "/" a) eqn:Ea, (PyOs.startswith "/" b) eqn:Eb;
    intros H.
  - exact H.
  - subst a. discriminate Ea.
  - subst b. discriminate Eb.
  - cbn in H. now injection H.
Qed.

(** The path of a stored upload is the path handed to the engine. *)
Lemma stored_upload_reaches_engine (env : Env) (g : Globals)
    (request : Request) (file : FileStorage) (w : World) :
  files request !! "file" = Some file ->
  filename file <> "" ->
  allowed_file (filename file) = true ->
  save_outcome env (stored_path env file) = SaveWrites ->
  engine_log (run env (transcribe_audio env g request) w).2
    = (engine_log w ++ [stored_path env file])%list.
Proof.
  intros Hf Hn Ha Hs.
  rewrite (transcribe_audio_valid env g request file w Hf Hn Ha).
  rewrite run_try_except.
  destruct (run_transcribe_audio_try env g file (clock env (ticks w)) (tick w) Hs)
    as (w1 & ts & _ & Hlog & ->).
  cbn in Hlog.
  destruct (engine env (model g) (stored_path env file) (Some (stream file)))
    as [e|result].
  - destruct (run_transcribe_audio_except env (stored_path env file) e w1)
      as (w' & -> & _ & Hl & _). cbn. now rewrite Hl.
  - destruct (remove_refused env (stored_path env file)) as [e|].
    + destruct (run_transcribe_audio_except env (stored_path env file) e (tick w1))
        as (w' & -> & _ & Hl & _). cbn. now rewrite Hl.
    + exact Hlog.
Qed.

(** C3, amended. The upload is stored at, and the engine is called on,
    [os.path.join('uploads', secure_filename(name))] for the upload's
    filename [name]: nothing of the request but its filename enters the
    path. Two requests therefore get the same path exactly when their
    filenames are sanitised to the same name, and always when the filenames
    are equal. *)
Theorem stored_path_by_filename (env : Env) (g : Globals)
    (request1 request2 : Request) (file1 file2 : FileStorage)
    (w1 w2 : World) :
  files request1 !! "file" = Some file1 ->
  files request2 !! "file" = Some file2 ->
  filename file1 <> "" -> filename file2 <> "" ->
  allowed_file (filename file1) = true ->
  allowed_file (filename file2) = true ->
  save_outcome env (stored_path env file1) = SaveWrites ->
  save_outcome env (stored_path env file2) = SaveWrites ->
  engine_log (run env (transcribe_audio env g request1) w1).2
    = (engine_log w1 ++ [stored_path env file1])%list /\
  engine_log (run env (transcribe_audio env g request2) w2).2
    = (engine_log w2 ++ [stored_path env file2])%list /\
  stored_path env file1 =
    PyOs.path_join "uploads" (secure_filename env (filename file1)) /\
  (stored_path env file1 = stored_path env file2 <->
     secure_filename env (filename file1) = secure_filename env (filename file2)) /\
  (filename file1 = filename file2 ->
     stored_path env file1 = stored_path env file2).
Proof.
  intros Hf1 Hf2 Hn1 Hn2 Ha1 Ha2 Hs1 Hs2.
  split; [now apply stored_upload_reaches_engine|].
  split; [now apply stored_upload_reaches_engine|].
  split; [reflexivity|]. split.
  - unfold stored_path. split; [apply path_join_uploads_inj | now intros ->].
  - unfold stored_path. now intros ->.
Qed.

Lemma stored_path_by_filename_witness :
  engine_log (run Sample.env
     (transcribe_audio Sample.env Sample.globals Sample.first_upload)
     Sample.world).2 = ["uploads/a.wav"] /\
  engine_log (run Sample.env
     (transcribe_audio Sample.env Sample.globals Sample.second_upload)
     Sample.world).2 = ["uploads/a.wav"].
Proof.
  pose proof (stored_path_by_filename Sample.env Sample.globals
    Sample.first_upload Sample.second_upload
    (mkFileStorage "a.wav" "audio/wav" [Byte.x01])
    (mkFileStorage "a.wav" "audio/wav" [Byte.x02; Byte.x03])
    Sample.world Sample.world) as H.
  destruct H as (H1 & H2 & _);
    [reflexivity | reflexivity | discriminate | discriminate
    | reflexivity | reflexivity | reflexivity | reflexivity |].
  split; [exact H1 | exact H2].
Defined.

(** ** [health_check] *)

Lemma run_health_check (env : Env) (g : Globals) (w : World) :
  run env (health_check env g) w =
  (inr (mkResponse 200 (JObj [
     ("status", JStr "healthy");
     ("model", JStr "whisper-large");
     ("device", JStr (DEVICE g));
     ("gpu_info", JObj [
        ("available", JBool (cuda_is_available env));
        ("device_count",
           JNum (if cuda_is_available env then cuda_device_count env else 0));
        ("device_name",
           if cuda_is_available env then JStr (cuda_get_device_name env 0)
           else JNull)]);
     ("memory_info",
        if cuda_is_available env then
          JObj [("allocated", JStr (format_MB env (cuda_memory_allocated env 0)));
                ("cached", JStr (format_MB env (cuda_memory_reserved env 0)))]
        else JObj []);
     ("uptime", JNum (clock env (ticks w) - start_time g));
     ("timestamp", JStr (isoformat_now env (S (ticks w))))])),
   tick (tick w)).
Proof. reflexivity. Qed.

(** C7. [health_check] returns for every environment, with status 200 and
    a JSON object as body; and without a GPU the body reports it:
    [gpu_info] is [{available: false, device_count: 0, device_name: null}]
    and [memory_info] is the empty object. *)
Theorem health_check_always_200 (env : Env) (g : Globals) (w : World) :
  exists fields w',
    run env (health_check env g) w = (inr (mkResponse 200 (JObj fields)), w') /\
    (cuda_is_available env = false ->
       field "gpu_info" (JObj fields) =
         Some (JObj [("available", JBool false);
                     ("device_count", JNum 0);
                     ("device_name", JNull)]) /\
       field "memory_info" (JObj fields) = Some (JObj [])).
Proof.
  rewrite run_health_check. eexists _, _. split; [reflexivity|].
  intros ->. split; reflexivity.
Qed.

Lemma health_check_always_200_witness :
  exists fields w',
    run Sample.env (health_check Sample.env Sample.globals) Sample.world
      = (inr (mkResponse 200 (JObj fields)), w') /\
    field "gpu_info" (JObj fields) =
      Some (JObj [("available", JBool false);
                  ("device_count", JNum 0);
                  ("device_name", JNull)]) /\
    field "memory_info" (JObj fields) = Some (JObj []).
Proof.
  destruct (health_check_always_200 Sample.env Sample.globals Sample.world)
    as (fields & w' & Hrun & Hgpu).
  exists fields, w'. split; [exact Hrun|]. apply Hgpu. reflexivity.
Defined.

(** C8, as stated, fails: the body has no field [uptime_seconds]; the uptime
    is under the key [uptime]. *)
Lemma health_check_has_no_uptime_seconds :
  exists b w',
    run Sample.env (health_check Sample.env Sample.globals) Sample.world
      = (inr (mkResponse 200 b), w') /\
    field "uptime_seconds" b = None /\
    keys b <> ["status"; "model"; "device"; "gpu_info"; "memory_info";
               "uptime_seconds"; "timestamp"].
Proof.
  eexists _, _. split; [reflexivity|]. split; [reflexivity | discriminate].
Qed.

(** C8, amended. The body of every [/health] response has exactly the
    fields status, model, device, gpu_info, memory_info, uptime, timestamp;
    [gpu_info] has exactly available, device_count, device_name; and
    [memory_info] has allocated and cached when a GPU is present and no
    field otherwise. *)
Theorem health_check_fields (env : Env) (g : Globals) (w : World) :
  exists b gpu_info memory_info w',
    run env (health_check env g) w = (inr (mkResponse 200 b), w') /\
    keys b = ["status"; "model"; "device"; "gpu_info"; "memory_info";
              "uptime"; "timestamp"] /\
    field "gpu_info" b = Some gpu_info /\
    keys gpu_info = ["available"; "device_count"; "device_name"] /\
    field "memory_info" b = Some memory_info /\
    keys memory_info =
      if cuda_is_available env then ["allocated"; "cached"] else [].
Proof.
  rewrite run_health_check. eexists _, _, _, _.
  split; [reflexivity|]. split; [reflexivity|]. split; [reflexivity|].
  split; [reflexivity|]. split; [reflexivity|].
  destruct (cuda_is_available env); reflexivity.
Qed.

(** ** The size limit *)

(** C9. The configured limit is 50 MiB. A [POST /transcribe] request whose
    body is larger is answered with the oversize error before the view
    function runs: nothing is stored and the engine is not called. A request
    of at most 50 MiB is handed to the view function, and its answer is the
    view function's. *)
Theorem oversize_rejected_at_boundary (env : Env) (g : Globals)
    (request : Request) (w : World) :
  app_config_MAX_CONTENT_LENGTH = Some (50 * 2 ^ 20) /\
  (50 * 2 ^ 20 < content_length request ->
     post_transcribe env g request = Ret OversizeError /\
     run env (post_transcribe env g request) w = (inr OversizeError, w)) /\
  (content_length request <= 50 * 2 ^ 20 ->
     exists r w',
       run env (transcribe_audio env g request) w = (inr r, w') /\
       run env (post_transcribe env g request) w = (inr (Handled r), w')).
Proof.
  split; [reflexivity|].
  unfold post_transcribe, boundary_layer, app_config_MAX_CONTENT_LENGTH.
  change MAX_CONTENT_LENGTH with 52428800. change (50 * 2 ^ 20) with 52428800.
  split; intros H.
  - apply Z.ltb_lt in H. rewrite H. split; reflexivity.
  - apply Z.ltb_ge in H. rewrite H.
    destruct (transcribe_audio_never_raises env g request w) as (r & w' & Hr).
    exists r, w'. split; [exact Hr|]. rewrite run_bind, Hr. reflexivity.
Qed.

Lemma oversize_rejected_at_boundary_witness :
  run Sample.env
    (post_transcribe Sample.env Sample.globals
       (mkRequest (files Sample.first_upload) (50 * 2 ^ 20 + 1)))
    Sample.world = (inr OversizeError, Sample.world) /\
  exists r w',
    run Sample.env
      (post_transcribe Sample.env Sample.globals
         (mkRequest (files Sample.first_upload) (50 * 2 ^ 20)))
      Sample.world = (inr (Handled r), w').
Proof.
  split.
  - apply (oversize_rejected_at_boundary Sample.env Sample.globals
             (mkRequest (files Sample.first_upload) (50 * 2 ^ 20 + 1))
             Sample.world).
    reflexivity.
  - destruct (oversize_rejected_at_boundary Sample.env Sample.globals
                (mkRequest (files Sample.first_upload) (50 * 2 ^ 20))
                Sample.world) as (_ & _ & H).
    destruct H as (r & w' & _ & H); [discriminate|].
    exists r, w'. exact H.
Defined.

(** ** The module globals across requests *)

(** Start-up never fails, and fixes the globals from the environment. *)
Lemma boot_globals (env : Env) (w : World) :
  exists w',
    boot env w =
    Some (mkServer
            (mkGlobals (if cuda_is_available env then "cuda" else "cpu")
               (whisper_load_model "turbo"
                  (if cuda_is_available env then "cuda" else "cpu"))
               (clock env (ticks w)))
            w').
Proof.
  unfold boot, startup. cbn.
  destruct (path_exists UPLOAD_FOLDER (tick (tick w))) eqn:E; cbn.
  - eexists. reflexivity.
  - unfold os_makedirs. rewrite E. cbn. eexists. reflexivity.
Qed.

Lemma serve_globals (env : Env) (r : HttpRequest) (s : Server) :
  globals (serve env r s).2 = globals s.
Proof.
  unfold serve. destruct (run env _ (world s)) as [out w']. reflexivity.
Qed.

Lemma serve_all_globals (env : Env) (rs : list HttpRequest) (s : Server) :
  globals (serve_all env rs s).2 = globals s.
Proof.
  revert s. induction rs as [|r rs IH]; intros s; cbn; [reflexivity|].
  pose proof (serve_globals env r s) as Hr.
  destruct (serve env r s) as [out s']. specialize (IH s').
  destruct (serve_all env rs s') as [outs s'']. cbn in *. congruence.
Qed.

(** C10. In every [/health] response the field [model] is the constant
    [whisper-large], whatever the globals hold, while the model loaded at
    start-up is named [turbo]; and the field [device] is the module-level
    [DEVICE], which is chosen once at start-up ([cuda] with a GPU, [cpu]
    without) and is still the same after any sequence of requests. *)
Theorem health_model_and_device (env : Env) (w0 : World)
    (history : list HttpRequest) (g : Globals) (w : World) :
  (exists r w',
     run env (health_check env g) w = (inr r, w') /\
     field "model" (body r) = Some (JStr "whisper-large") /\
     field "device" (body r) = Some (JStr (DEVICE g))) /\
  (exists s,
     boot env w0 = Some s /\
     model_name (model (globals s)) = "turbo" /\
     DEVICE (globals s) = (if cuda_is_available env then "cuda" else "cpu") /\
     globals (serve_all env history s).2 = globals s /\
     exists r s',
       serve env GET_health (serve_all env history s).2 = (inr r, s') /\
       field "model" (body r) = Some (JStr "whisper-large") /\
       field "device" (body r) = Some (JStr (DEVICE (globals s)))).
Proof.
  split.
  - rewrite run_health_check. eexists _, _. repeat split.
  - destruct (boot_globals env w0) as (wb & ->).
    eexists. split; [reflexivity|].
    split; [reflexivity|]. split; [reflexivity|].
    split; [apply serve_all_globals|].
    pose proof (serve_all_globals env history
      (mkServer
          (mkGlobals (if cuda_is_available env then "cuda" else "cpu")
             (whisper_load_model "turbo"
                (if cuda_is_available env then "cuda" else "cpu"))
             (clock env (ticks w0)))
          wb)) as Hg.
    destruct (serve_all env history _) as [outs s1]. cbn in Hg |- *.
    eexists _, _. split; [reflexivity|]. split; [reflexivity|].
    cbn. now rewrite Hg.
Qed.

(** ** Threads *)

Section Threads.

Context (env : Env).

Lemma in_flight_le_length (pool : list Thread) :
  (in_flight pool <= List.length pool)%nat.
Proof. unfold in_flight. apply List.filter_length_le. Qed.

Lemma in_flight_all (pool : list Thread) :
  Forall (fun t => in_engine t = true) pool ->
  in_flight pool = List.length pool.
Proof.
  unfold in_flight. induction 1 as [|t pool Ht _ IH]; cbn; [reflexivity|].
  rewrite Ht. cbn. now rewrite IH.
Qed.

Lemma step_length (pool pool' : list Thread) (w w' : World) :
  step env (pool, w) (pool', w') -> List.length pool' = List.length pool.
Proof. inversion 1; subst. apply length_insert. Qed.

Lemma steps_length (s s' : list Thread * World) :
  rtc (step env) s s' -> List.length s'.1 = List.length s.1.
Proof.
  induction 1 as [|[p1 w1] [p2 w2] s3 H12 _ IH]; [reflexivity|].
  rewrite IH. now apply step_length in H12.
Qed.

(** A thread can run on its own, call by call, up to the engine. *)
Lemma run_to_engine_steps (p : Prog Response) (i : nat)
    (pool : list Thread) (w : World) :
  pool !! i = Some (Running p) ->
  rtc (step env) (pool, w)
    (<[i := (run_to_engine env p w).1]> pool, (run_to_engine env p w).2).
Proof.
  revert pool w. induction p as [r|e|X o k IH]; intros pool w Hi.
  - apply rtc_once. eapply step_thread; [exact Hi | constructor].
  - apply rtc_once. eapply step_thread; [exact Hi | constructor].
  - assert (Hlt : (i < List.length pool)%nat) by (eapply lookup_lt_Some; eauto).
    assert (Hgen : is_engine_call o = false ->
      rtc (step env) (pool, w)
        (<[i := (run_to_engine env (k (exec_op env o w).1) (exec_op env o w).2).1]> pool,
         (run_to_engine env (k (exec_op env o w).1) (exec_op env o w).2).2)).
    { intros Ho. eapply rtc_l.
      - eapply step_thread; [exact Hi | apply step_call, Ho].
      - rewrite <- (list_insert_insert_eq pool i
                        (run_to_engine env (k (exec_op env o w).1)
                           (exec_op env o w).2).1
                        (Running (k (exec_op env o w).1))).
        apply IH. now apply list_lookup_insert_eq. }
    destruct o; try (apply Hgen; reflexivity).
    apply rtc_once.
    eapply step_thread; [exact Hi | apply step_engine_enter].
Qed.

(** One thread scheduled alone, call after call, does what [run] says:
    the two semantics agree on a handler that nobody interrupts. *)
Lemma run_steps (p : Prog Response) (i : nat) (pool : list Thread)
    (w : World) :
  pool !! i = Some (Running p) ->
  rtc (step env) (pool, w)
    (<[i := Finished (run env p w).1]> pool, (run env p w).2).
Proof.
  revert pool w. induction p as [r|e|X o k IH]; intros pool w Hi.
  - apply rtc_once. eapply step_thread; [exact Hi | constructor].
  - apply rtc_once. eapply step_thread; [exact Hi | constructor].
  - assert (Hlt : (i < List.length pool)%nat) by (eapply lookup_lt_Some; eauto).
    assert (Hrun : run env (Vis o k) w
              = run env (k (exec_op env o w).1) (exec_op env o w).2).
    { cbn. now destruct (exec_op env o w). }
    rewrite Hrun.
    rewrite <- (list_insert_insert_eq pool i
                  (Finished (run env (k (exec_op env o w).1)
                               (exec_op env o w).2).1)
                  (Running (k (exec_op env o w).1))).
    assert (Hk : (<[i := Running (k (exec_op env o w).1)]> pool) !! i
                 = Some (Running (k (exec_op env o w).1)))
      by now apply list_lookup_insert_eq.
    eapply rtc_trans; [|apply IH, Hk].
    destruct (is_engine_call o) eqn:Ho.
    + destruct o; try discriminate Ho.
      eapply rtc_l;
        [eapply step_thread; [exact Hi | apply step_engine_enter]|].
      apply rtc_once.
      rewrite <- (list_insert_insert_eq pool i
                    (Running (k (exec_op env (ModelTranscribe m p) w).1))
                    (InEngine m p k)).
      eapply step_thread; [now apply list_lookup_insert_eq|].
      apply (step_engine_leave env m p k (log_engine_call p w)).
    + apply rtc_once. eapply step_thread; [exact Hi | now apply step_call].
Qed.

(** A request that passes the checks and whose upload is written gets to
    the engine, with its upload at the stored path. *)
Lemma transcribe_audio_to_engine (g : Globals) (request : Request)
    (file : FileStorage) (w : World) :
  files request !! "file" = Some file ->
  filename file <> "" ->
  allowed_file (filename file) = true ->
  save_outcome env (stored_path env file) = SaveWrites ->
  exists k w',
    run_to_engine env (transcribe_audio env g request) w
      = (InEngine (model g) (stored_path env file) k, w') /\
    fs_files w' = <[stored_path env file := stream file]> (fs_files w).
Proof.
  intros Hf Hn Ha Hs. unfold transcribe_audio. rewrite Hf.
  apply String.eqb_neq in Hn. rewrite Hn, Ha.
  unfold transcribe_audio_try. cbn.
  destruct (path_exists UPLOAD_FOLDER (tick w)) eqn:E; cbn;
    [|unfold os_makedirs; cbn; rewrite E; cbn];
    unfold file_save; rewrite Hs; cbn;
    match goal with
    | |- context [path_exists (stored_path env file) ?W] =>
        rewrite (path_exists_file (stored_path env file) (stream file) W)
          by (cbn; apply lookup_insert_eq)
    end;
    cbn; unfold os_path_getsize; cbn; rewrite lookup_insert_eq; cbn;
    eexists _, _; split; reflexivity.
Qed.

(** Every stored request can be brought into the engine while the earlier
    ones are still in it. *)
Lemma all_enter_engine (g : Globals) (requests : list Request)
    (busy : list Thread) (w : World) :
  Forall (gets_stored env) requests ->
  Forall (fun t => in_engine t = true) busy ->
  exists pool' w',
    rtc (step env)
      ((busy ++ spawn env g (POST_transcribe <$> requests))%list, w)
      (pool', w') /\
    Forall (fun t => in_engine t = true) pool'.
Proof.
  intros Hreq. revert busy w.
  induction Hreq as [|request requests Hr _ IH]; intros busy w Hbusy.
  - exists busy, w. rewrite app_nil_r. split; [apply rtc_refl | exact Hbusy].
  - destruct Hr as (file & Hf & Hn & Ha & Hs).
    destruct (transcribe_audio_to_engine g request file w Hf Hn Ha Hs)
      as (k & w1 & Hrun & _).
    set (t := InEngine (model g) (stored_path env file) k).
    destruct (IH (busy ++ [t])%list w1) as (pool' & w' & Hsteps & Hall).
    { apply Forall_app. split; [exact Hbusy | repeat constructor]. }
    exists pool', w'. split; [|exact Hall].
    eapply rtc_trans; [|rewrite <- app_assoc in Hsteps; exact Hsteps].
    cbn [fmap list_fmap spawn].
    pose proof (run_to_engine_steps (transcribe_audio env g request)
      (List.length busy)
      (busy ++ Running (transcribe_audio env g request)
            :: spawn env g (POST_transcribe <$> requests))%list w) as H.
    rewrite Hrun in H. cbn [fst snd] in H.
    replace (List.length busy) with (List.length busy + 0)%nat in H at 2 by lia.
    rewrite insert_app_r in H. apply H. apply list_lookup_middle. reflexivity.
Qed.

End Threads.

(** C1, as stated, fails: two requests are both inside [model.transcribe]
    at the same instant. *)
Lemma two_engine_calls_in_flight :
  exists pool' w',
    rtc (step Sample.env)
      (spawn Sample.env Sample.globals
         [POST_transcribe Sample.first_upload;
          POST_transcribe Sample.second_upload], Sample.world)
      (pool', w') /\
    in_flight pool' = 2%nat.
Proof.
  destruct (all_enter_engine Sample.env Sample.globals
              [Sample.first_upload; Sample.second_upload] [] Sample.world)
    as (pool' & w' & Hsteps & Hall).
  - repeat constructor; eexists; (split; [reflexivity|]);
      (split; [discriminate|]); split; reflexivity.
  - constructor.
  - exists pool', w'. split; [exact Hsteps|].
    rewrite (in_flight_all pool' Hall).
    apply steps_length in Hsteps. exact Hsteps.
Qed.

(** C1, amended. app.py starts the server with [threaded=True] and calls
    [model.transcribe] under no lock: for any number of concurrent requests
    whose uploads get stored, the server can reach a state in which all of
    them are inside the engine at once; one invocation per request is the
    only bound. *)
Theorem engine_calls_not_serialized (env : Env) (g : Globals)
    (requests : list Request) (w : World) :
  Forall (gets_stored env) requests ->
  (exists pool' w',
     rtc (step env) (spawn env g (POST_transcribe <$> requests), w) (pool', w') /\
     in_flight pool' = List.length requests) /\
  (forall pool' w',
     rtc (step env) (spawn env g (POST_transcribe <$> requests), w) (pool', w') ->
     (in_flight pool' <= List.length requests)%nat).
Proof.
  intros Hreq. split.
  - destruct (all_enter_engine env g requests [] w Hreq)
      as (pool' & w' & Hsteps & Hall); [constructor|].
    exists pool', w'. split; [exact Hsteps|].
    rewrite (in_flight_all pool' Hall).
    apply steps_length in Hsteps. cbn in Hsteps.
    unfold spawn in Hsteps. now rewrite !length_fmap in Hsteps.
  - intros pool' w' Hsteps. apply steps_length in Hsteps. cbn in Hsteps.
    unfold spawn in Hsteps. rewrite !length_fmap in Hsteps.
    rewrite <- Hsteps. apply in_flight_le_length.
Qed.

Lemma engine_calls_not_serialized_witness :
  exists pool' w',
    rtc (step Sample.env)
      (spawn Sample.env Sample.globals
         (POST_transcribe <$> [Sample.first_upload; Sample.second_upload;
                               Sample.first_upload]), Sample.world)
      (pool', w') /\
    in_flight pool' = 3%nat.
Proof.
  apply (engine_calls_not_serialized Sample.env Sample.globals
           [Sample.first_upload; Sample.second_upload; Sample.first_upload]
           Sample.world).
  repeat constructor; eexists; (split; [reflexivity|]);
    (split; [discriminate|]); split; reflexivity.
Defined.

(** C3, as stated, fails: two different requests whose uploads are both
    named [a.wav] run concurrently; both are stored at [uploads/a.wav] and
    both engine calls are in flight on that one path, where only the bytes
    of the second upload are left. *)
Lemma same_filename_same_path :
  Sample.first_upload <> Sample.second_upload /\
  exists pool' w',
    rtc (step Sample.env)
      (spawn Sample.env Sample.globals
         [POST_transcribe Sample.first_upload;
          POST_transcribe Sample.second_upload], Sample.world)
      (pool', w') /\
    (exists m k1 k2,
       pool' = [InEngine m "uploads/a.wav" k1; InEngine m "uploads/a.wav" k2]) /\
    fs_files w' !! "uploads/a.wav" = Some [Byte.x02; Byte.x03] /\
    size (fs_files w') = 1%nat.
Proof.
  split.
  - intros H. apply (f_equal content_length) in H. discriminate H.
  - eexists _, _. split; [|split; [|split]].
    + eapply rtc_trans.
      * eapply (run_to_engine_steps Sample.env _ 0%nat). reflexivity.
      * eapply (run_to_engine_steps Sample.env _ 1%nat). reflexivity.
    + vm_compute. eexists _, _, _. reflexivity.
    + vm_compute. reflexivity.
    + vm_compute. reflexivity.
Qed.

(** * Further properties of app.py *)

(** ** [allowed_file] (lines 66-67) *)

Lemma cut_last_prefix (sep : ascii) (s t a b : string) :
  Py.cut_last sep t = Some (a, b) ->
  Py.cut_last sep (s ++ t) = Some (s ++ a, b).
Proof.
  intros H. induction s as [|c s IH]; simpl; [exact H | now rewrite IH].
Qed.

(** X1. Only what follows the last dot counts: whatever stands before a
    dot, directories and earlier extensions included, has no influence on
    the verdict. *)
Theorem allowed_file_ignores_stem (stem rest : string) :
  allowed_file (stem ++ "." ++ rest) = allowed_file ("." ++ rest).
Proof.
  rewrite !allowed_file_cut.
  destruct (Py.cut_last "." ("." ++ rest)) as [[a b]|] eqn:E.
  - now rewrite (cut_last_prefix "." stem _ a b E).
  - apply cut_last_None in E. discriminate E.
Qed.

(** X2. The check is blind to case everywhere, not only in the extension:
    two filenames with the same lowercase form get the same verdict. *)
Theorem allowed_file_case_blind (name1 name2 : string) :
  Py.lower name1 = Py.lower name2 ->
  allowed_file name1 = allowed_file name2.
Proof.
  intros H. rewrite !allowed_file_cut. apply cut_last_lower in H.
  destruct (Py.cut_last "." name1) as [[a x]|],
           (Py.cut_last "." name2) as [[a' y]|];
    try contradiction; [now rewrite H | reflexivity].
Qed.

Lemma allowed_file_case_blind_witness :
  Py.lower "Talk.Final.MP3" = Py.lower "talk.final.mp3" /\
  allowed_file "Talk.Final.MP3" = allowed_file "talk.final.mp3".
Proof.
  split; [reflexivity|].
  apply (allowed_file_case_blind "Talk.Final.MP3" "talk.final.mp3").
  reflexivity.
Defined.

(** X3. The index [[1]] of line 67 cannot fail. A filename without a dot is
    rejected by the left operand of [and] and [rsplit] is left with a single
    piece; a filename with a dot is cut into exactly two pieces, which joined
    by a dot give the filename back, and the second piece has no dot. *)
Theorem allowed_file_index_guarded (name : string) :
  (Py.contains "." name = false ->
     allowed_file name = false /\ Py.rsplit1 "." name = [name]) /\
  (Py.contains "." name = true ->
     exists a b, Py.rsplit1 "." name = [a; b] /\
                 name = a ++ "." ++ b /\
                 Py.contains "." b = false).
Proof.
  unfold Py.rsplit1. split; intros H.
  - rewrite allowed_file_cut.
    apply cut_last_None in H. now rewrite H.
  - destruct (Py.cut_last "." name) as [[a b]|] eqn:E.
    + apply cut_last_Some in E as [-> Hb]. exists a, b. auto.
    + apply cut_last_None in E. congruence.
Qed.

Lemma allowed_file_index_guarded_witness :
  (allowed_file "README" = false /\ Py.rsplit1 "." "README" = ["README"]) /\
  exists a b, Py.rsplit1 "." "a.b.wav" = [a; b] /\
              "a.b.wav" = a ++ "." ++ b /\ Py.contains "." b = false.
Proof.
  split.
  - apply (allowed_file_index_guarded "README"). reflexivity.
  - apply (allowed_file_index_guarded "a.b.wav"). reflexivity.
Defined.

(** ** Facts that hold on every path through a program *)

Section ProgAll.

Context {A : Type} (Qop : forall X : Type, Op X -> Prop).

Lemma prog_all_bind {B : Type} (Qret : B -> Prop) (Qraise : Exn -> Prop)
    (m : Prog A) (f : A -> Prog B) :
  prog_all Qop (fun a => prog_all Qop Qret Qraise (f a)) Qraise m ->
  prog_all Qop Qret Qraise (m ≫= f).
Proof.
  induction m as [a|e|X o k IH]; cbn; auto.
  intros [Ho Hk]. split; [exact Ho|]. intros x. apply IH, Hk.
Qed.

Lemma prog_all_try_except (Qret : A -> Prop) (Qraise : Exn -> Prop)
    (m : Prog A) (h : Exn -> Prog A) :
  prog_all Qop Qret (fun e => prog_all Qop Qret Qraise (h e)) m ->
  prog_all Qop Qret Qraise (try_except m h).
Proof.
  induction m as [a|e|X o k IH]; cbn; auto.
  intros [Ho Hk]. split; [exact Ho|]. intros x. apply IH, Hk.
Qed.


End ProgAll.

(** A call that touches [paths] only leaves every other file alone. *)
Lemma exec_op_touches_only (env : Env) (paths : string -> Prop) {X : Type}
    (o : Op X) (w : World) (q : string) :
  touches_only paths X o -> ~ paths q ->
  fs_files (exec_op env o w).2 !! q = fs_files w !! q.
Proof.
  intros Ho Hq. destruct o; cbn in *; try reflexivity.
  - unfold os_makedirs. now destruct (path_exists p w).
  - unfold file_save. destruct (save_outcome env p); cbn; try reflexivity.
    apply lookup_insert_ne. congruence.
  - unfold os_path_getsize.
    destruct (fs_files w !! p); [reflexivity|].
    now destruct (bool_decide (p ∈ fs_dirs w)).
  - unfold os_remove. destruct (fs_files w !! p) eqn:E; [|reflexivity].
    destruct (remove_refused env p); cbn; [reflexivity|].
    apply lookup_delete_ne. congruence.
Qed.

Lemma run_touches_only (env : Env) (paths : string -> Prop) {A : Type}
    (m : Prog A) (w : World) (q : string) :
  prog_all (touches_only paths) (fun _ => True) (fun _ => True) m ->
  ~ paths q ->
  fs_files (run env m w).2 !! q = fs_files w !! q.
Proof.
  intros Hm Hq. revert w Hm.
  induction m as [a|e|X o k IH]; intros w Hm; cbn; try reflexivity.
  destruct Hm as [Ho Hk].
  pose proof (exec_op_touches_only env paths o w q Ho Hq) as Hstep.
  destruct (exec_op env o w) as [x w']. cbn in Hstep.
  rewrite IH by apply Hk. exact Hstep.
Qed.



(** ** What the view functions do on every path *)

Ltac walk :=
  repeat first
    [ progress cbn
    | match goal with
      | |- True => exact I
      | |- _ /\ _ => split
      | |- forall _, _ => intro
      | |- context [match ?x with inl _ => _ | inr _ => _ end] => destruct x
      | |- context [if ?b then _ else _] => destruct b
      end ].

Lemma transcribe_audio_touches (env : Env) (g : Globals) (request : Request) :
  prog_all (touches_only (request_paths env (POST_transcribe request)))
    (fun _ => True) (fun _ => True) (transcribe_audio env g request).
Proof.
  unfold transcribe_audio, transcribe_audio_try, transcribe_audio_except,
    cleanup_after_error.
  destruct (files request !! "file") as [file|] eqn:Hf; walk; eauto.
Qed.


Lemma transcribe_audio_rejected_no_engine (env : Env) (g : Globals)
    (request : Request) :
  (files request !! "file" = None \/
   exists file, files request !! "file" = Some file /\
     (filename file = "" \/ allowed_file (filename file) = false)) ->
  prog_all not_engine (fun r => status r = 400) (fun _ => False)
    (transcribe_audio env g request).
Proof.
  intros H. unfold transcribe_audio, not_engine.
  destruct H as [-> | (file & -> & [-> | Ha])].
  - cbn. auto.
  - cbn. auto.
  - rewrite Ha. destruct (String.eqb (filename file) ""); cbn; auto.
Qed.

Lemma health_check_quiet (env : Env) (g : Globals) :
  prog_all (fun X o => not_engine X o /\ touches_only (fun _ => False) X o)
    (fun r => status r = 200) (fun _ => False) (health_check env g).
Proof. unfold health_check, not_engine. cbn. auto 10. Qed.

Lemma prog_all_weaken {A : Type} (Qop Qop' : forall X : Type, Op X -> Prop)
    (Qret Qret' : A -> Prop) (Qraise Qraise' : Exn -> Prop) (m : Prog A) :
  (forall X o, Qop X o -> Qop' X o) ->
  (forall a, Qret a -> Qret' a) ->
  (forall e, Qraise e -> Qraise' e) ->
  prog_all Qop Qret Qraise m -> prog_all Qop' Qret' Qraise' m.
Proof.
  intros Ho Hr He. induction m as [a|e|X o k IH]; cbn; auto.
  intros [H1 H2]. split; [auto|]. intros x. apply IH, H2.
Qed.

Lemma dispatch_touches (env : Env) (g : Globals) (r : HttpRequest) :
  prog_all (touches_only (request_paths env r)) (fun _ => True) (fun _ => True)
    (dispatch env g r).
Proof.
  destruct r as [request|]; cbn [dispatch].
  - apply transcribe_audio_touches.
  - eapply prog_all_weaken; [| | |apply health_check_quiet]; cbn; tauto.
Qed.


(** ** One [/transcribe] request, path by path *)

Ltac crunch :=
  repeat first
    [ progress cbn
    | match goal with
      | |- context [path_exists ?p ?w] =>
          let E := fresh "E" in destruct (path_exists p w) eqn:E
      | |- context [save_outcome ?e ?p] => destruct (save_outcome e p) eqn:?
      | |- context [engine ?e ?m ?p ?c] => destruct (engine e m p c) eqn:?
      | |- context [remove_refused ?e ?p] => destruct (remove_refused e p) eqn:?
      | |- context [bool_decide ?P] => destruct (bool_decide P) eqn:?
      | |- context [match ?m !! ?p with _ => _ end] => destruct (m !! p) eqn:?
      end
    | progress unfold os_makedirs, file_save, os_path_getsize, os_remove,
        model_transcribe ].

(** The stored path is never the upload folder itself. *)
Lemma stored_path_not_folder (env : Env) (file : FileStorage) :
  stored_path env file <> UPLOAD_FOLDER.
Proof.
  unfold stored_path. rewrite path_join_uploads.
  destruct (PyOs.startswith "/" (secure_filename env (filename file))) eqn:E.
  - intros H. rewrite H in E. discriminate E.
  - cbn. discriminate.
Qed.


(** The [try] block, whatever the file system and the engine do. *)
Lemma transcribe_audio_try_facts (env : Env) (g : Globals)
    (file : FileStorage) (t0 : Z) (w : World) :
  let p := stored_path env file in
  exists out w1,
    run env (transcribe_audio_try g file p t0) w = (out, w1) /\
    (engine_log w1 = engine_log w \/
     engine_log w1 = (engine_log w ++ [p])%list) /\
    (path_exists UPLOAD_FOLDER w = true /\ fs_dirs w1 = fs_dirs w \/
     path_exists UPLOAD_FOLDER w = false /\
     fs_dirs w1 = {[UPLOAD_FOLDER]} ∪ fs_dirs w) /\
    (forall q, q <> p -> fs_files w1 !! q = fs_files w !! q) /\
    match out with
    | inr r => fs_files w1 !! p = None
    | inl _ => True
    end.
Proof.
  intros p. unfold transcribe_audio_try.
  crunch.
  all: eexists _, _; (split; [reflexivity|]); cbn.
  all: (split; [auto|]); (split; [auto|]).
  all: split;
    [intros q Hq; rewrite ?lookup_delete_ne, ?lookup_insert_ne by done;
     reflexivity|].
  all: try exact I.
  all: apply lookup_delete_eq.
Qed.

(** Every [/transcribe] request, whatever happens to it. *)
Lemma transcribe_audio_facts (env : Env) (g : Globals) (request : Request)
    (w : World) :
  exists r w',
    run env (transcribe_audio env g request) w = (inr r, w') /\
    (engine_log w' = engine_log w \/
     exists file, files request !! "file" = Some file /\
       engine_log w' = (engine_log w ++ [stored_path env file])%list) /\
    (fs_dirs w' = fs_dirs w \/
     path_exists UPLOAD_FOLDER w = false /\
     fs_dirs w' = {[UPLOAD_FOLDER]} ∪ fs_dirs w) /\
    (forall q, ~ request_paths env (POST_transcribe request) q ->
       fs_files w' !! q = fs_files w !! q) /\
    (forall file, files request !! "file" = Some file ->
       remove_refused env (stored_path env file) = None ->
       fs_files w' !! stored_path env file = None \/ fs_files w' = fs_files w).
Proof.
  unfold transcribe_audio.
  destruct (files request !! "file") as [file|] eqn:Hf;
    [|cbn; eexists _, _; split; [reflexivity|]; cbn; repeat split; auto;
      intros ? [=]].
  destruct (String.eqb (filename file) "");
    [cbn; eexists _, _; split; [reflexivity|]; cbn; repeat split; auto|].
  destruct (negb (allowed_file (filename file)));
    [cbn; eexists _, _; split; [reflexivity|]; cbn; repeat split; auto|].
  change (run env (call TimeTime ≫= ?k) w)
    with (run env (k (clock env (ticks w))) (tick w)).
  cbv beta zeta. rewrite run_try_except.
  destruct (transcribe_audio_try_facts env g file (clock env (ticks w)) (tick w))
    as (out & w1 & -> & Hlog & Hdirs0 & Hframe & Hout).
  cbn in Hlog, Hdirs0, Hframe.
  assert (Hdirs : fs_dirs w1 = fs_dirs w \/
                  path_exists UPLOAD_FOLDER w = false /\
                  fs_dirs w1 = {[UPLOAD_FOLDER]} ∪ fs_dirs w)
    by (destruct Hdirs0 as [[_ ?]|?]; auto).
  assert (Hother : forall q,
            ~ request_paths env (POST_transcribe request) q ->
            q <> stored_path env file).
  { intros q Hq ->. apply Hq. cbn. eauto. }
  destruct out as [e|r].
  - destruct (run_transcribe_audio_except env (stored_path env file) e w1)
      as (w' & -> & Hd' & Hl' & Hf').
    eexists _, _. split; [reflexivity|]. rewrite Hd', Hl'.
    split; [destruct Hlog; eauto|]. split; [exact Hdirs|]. split.
    + intros q Hq. rewrite <- (Hframe q) by auto. rewrite Hf'.
      destruct (fs_files w1 !! stored_path env file); [|reflexivity].
      destruct (remove_refused env (stored_path env file)); [reflexivity|].
      apply lookup_delete_ne. specialize (Hother q Hq). congruence.
    + intros file' [= <-] Hr. left. rewrite Hf', Hr.
      destruct (fs_files w1 !! stored_path env file) eqn:E;
        [apply lookup_delete_eq | exact E].
  - eexists _, _. split; [reflexivity|].
    split; [destruct Hlog; eauto|]. split; [exact Hdirs|]. split.
    + intros q Hq. apply Hframe. auto.
    + intros file' [= <-] _. left. exact Hout.
Qed.

(** X4. The three rejections are told apart, in the order of the checks:
    no [file] part gives "No file provided"; an empty filename gives "No
    file selected" (although [allowed_file] would reject it too); any other
    filename that [allowed_file] rejects gives "File type not allowed". *)
Theorem validation_messages (env : Env) (g : Globals) (request : Request)
    (w : World) :
  (files request !! "file" = None ->
     (run env (transcribe_audio env g request) w).1 =
       inr (mkResponse 400 (JObj [("error", JStr "No file provided")]))) /\
  (forall file, files request !! "file" = Some file ->
     filename file = "" ->
     (run env (transcribe_audio env g request) w).1 =
       inr (mkResponse 400 (JObj [("error", JStr "No file selected")]))) /\
  (forall file, files request !! "file" = Some file ->
     filename file <> "" ->
     allowed_file (filename file) = false ->
     (run env (transcribe_audio env g request) w).1 =
       inr (mkResponse 400 (JObj [("error", JStr "File type not allowed")]))).
Proof.
  unfold transcribe_audio. repeat split.
  - intros ->. reflexivity.
  - intros file -> ->. reflexivity.
  - intros file -> Hn ->. apply String.eqb_neq in Hn. rewrite Hn. reflexivity.
Qed.

Lemma validation_messages_witness :
  (run Sample.env
     (transcribe_audio Sample.env Sample.globals Faulty.empty_request)
     Sample.world).1 =
    inr (mkResponse 400 (JObj [("error", JStr "No file provided")])) /\
  (run Sample.env
     (transcribe_audio Sample.env Sample.globals Faulty.unnamed_upload)
     Sample.world).1 =
    inr (mkResponse 400 (JObj [("error", JStr "No file selected")])) /\
  (run Sample.env
     (transcribe_audio Sample.env Sample.globals Faulty.bare_upload)
     Sample.world).1 =
    inr (mkResponse 400 (JObj [("error", JStr "File type not allowed")])).
Proof.
  split; [|split].
  - apply (validation_messages Sample.env Sample.globals Faulty.empty_request
             Sample.world). reflexivity.
  - apply (proj1 (proj2 (validation_messages Sample.env Sample.globals
             Faulty.unnamed_upload Sample.world))
             (mkFileStorage "" "audio/wav" [Byte.x01]));
      reflexivity.
  - apply (proj2 (proj2 (validation_messages Sample.env Sample.globals
             Faulty.bare_upload Sample.world))
             (mkFileStorage "wav" "audio/wav" [Byte.x01]));
      [reflexivity | discriminate | reflexivity].
Defined.

(** The whole run when nothing fails, with the clock readings it takes:
    [t] at line 72, [t+1] and [t+2] around the engine call, [t+3] at the
    end. *)
Lemma run_transcribe_audio_success (env : Env) (g : Globals)
    (request : Request) (file : FileStorage) (result : TranscriptionResult)
    (w : World) :
  files request !! "file" = Some file ->
  filename file <> "" ->
  allowed_file (filename file) = true ->
  save_outcome env (stored_path env file) = SaveWrites ->
  engine env (model g) (stored_path env file) (Some (stream file)) = inr result ->
  remove_refused env (stored_path env file) = None ->
  exists w',
    run env (transcribe_audio env g request) w =
      (inr (mkResponse 200 (JObj [
         ("text", JStr (text result));
         ("segments", JArr (segments result));
         ("language", JStr (language result));
         ("processing_time", JObj [
            ("transcribe",
               JNum (clock env (2 + ticks w) - clock env (1 + ticks w)));
            ("total",
               JNum (clock env (3 + ticks w) - clock env (ticks w)))])])),
       w') /\
    engine_log w' = (engine_log w ++ [stored_path env file])%list /\
    fs_files w' = delete (stored_path env file) (fs_files w).
Proof.
  intros Hf Hn Ha Hs He Hr.
  rewrite (transcribe_audio_valid env g request file w Hf Hn Ha).
  rewrite run_try_except. unfold transcribe_audio_try. cbn.
  destruct (path_exists UPLOAD_FOLDER (tick w)) eqn:E; cbn;
    [|unfold os_makedirs; cbn; rewrite E; cbn];
    unfold file_save; rewrite Hs; cbn;
    match goal with
    | |- context [path_exists (stored_path env file) ?W] =>
        rewrite (path_exists_file (stored_path env file) (stream file) W)
          by (cbn; apply lookup_insert_eq)
    end;
    cbn; unfold os_path_getsize; cbn; rewrite lookup_insert_eq; cbn;
    unfold model_transcribe; cbn; rewrite lookup_insert_eq, He; cbn;
    unfold os_remove; cbn; rewrite lookup_insert_eq, Hr; cbn;
    rewrite delete_insert_eq;
    eexists; (split; [reflexivity|]); split; reflexivity.
Qed.

(** X5. When nothing fails (the upload is written, the engine returns
    [result], the file is removed) the answer is 200 with exactly the fields
    text, segments, language and processing_time, carrying the engine's
    result unchanged; the engine was called once, on the stored path and on
    the uploaded bytes; the stored file is gone. *)
Theorem transcribe_success_200 (env : Env) (g : Globals) (request : Request)
    (file : FileStorage) (result : TranscriptionResult) (w : World) :
  files request !! "file" = Some file ->
  filename file <> "" ->
  allowed_file (filename file) = true ->
  save_outcome env (stored_path env file) = SaveWrites ->
  engine env (model g) (stored_path env file) (Some (stream file)) = inr result ->
  remove_refused env (stored_path env file) = None ->
  exists r w',
    run env (transcribe_audio env g request) w = (inr r, w') /\
    status r = 200 /\
    keys (body r) = ["text"; "segments"; "language"; "processing_time"] /\
    field "text" (body r) = Some (JStr (text result)) /\
    field "segments" (body r) = Some (JArr (segments result)) /\
    field "language" (body r) = Some (JStr (language result)) /\
    engine_log w' = (engine_log w ++ [stored_path env file])%list /\
    fs_files w' = delete (stored_path env file) (fs_files w).
Proof.
  intros Hf Hn Ha Hs He Hr.
  destruct (run_transcribe_audio_success env g request file result w
              Hf Hn Ha Hs He Hr) as (w' & -> & Hlog & Hfiles).
  eexists _, _. split; [reflexivity|]. repeat split; assumption.
Qed.

Lemma transcribe_success_200_witness :
  exists r w',
    run Sample.env
      (transcribe_audio Sample.env Sample.globals Sample.first_upload)
      Sample.world = (inr r, w') /\
    status r = 200 /\
    keys (body r) = ["text"; "segments"; "language"; "processing_time"] /\
    field "text" (body r) = Some (JStr "hello") /\
    field "segments" (body r) = Some (JArr []) /\
    field "language" (body r) = Some (JStr "en") /\
    engine_log w' = ["uploads/a.wav"] /\
    fs_files w' = delete "uploads/a.wav" (fs_files Sample.world).
Proof.
  apply (transcribe_success_200 Sample.env Sample.globals Sample.first_upload
           (mkFileStorage "a.wav" "audio/wav" [Byte.x01])
           (mkResult "hello" [] "en") Sample.world);
    [reflexivity | discriminate | reflexivity | reflexivity | reflexivity
    | reflexivity].
Defined.

(** X6. With a clock that does not run backwards, the two durations of a
    200 response are ordered: 0 <= transcribe <= total. *)
Theorem processing_time_ordered (env : Env) (g : Globals) (request : Request)
    (file : FileStorage) (result : TranscriptionResult) (w : World) :
  (forall n m : nat, (n <= m)%nat -> clock env n <= clock env m) ->
  files request !! "file" = Some file ->
  filename file <> "" ->
  allowed_file (filename file) = true ->
  save_outcome env (stored_path env file) = SaveWrites ->
  engine env (model g) (stored_path env file) (Some (stream file)) = inr result ->
  remove_refused env (stored_path env file) = None ->
  exists r transcribe total,
    (run env (transcribe_audio env g request) w).1 = inr r /\
    field "processing_time" (body r) =
      Some (JObj [("transcribe", JNum transcribe); ("total", JNum total)]) /\
    0 <= transcribe <= total.
Proof.
  intros Hmono Hf Hn Ha Hs He Hr.
  destruct (run_transcribe_audio_success env g request file result w
              Hf Hn Ha Hs He Hr) as (w' & -> & _).
  eexists _, _, _. split; [reflexivity|]. split; [reflexivity|].
  pose proof (Hmono (ticks w) (1 + ticks w)%nat ltac:(lia)).
  pose proof (Hmono (1 + ticks w)%nat (2 + ticks w)%nat ltac:(lia)).
  pose proof (Hmono (2 + ticks w)%nat (3 + ticks w)%nat ltac:(lia)).
  lia.
Qed.

Lemma processing_time_ordered_witness :
  exists r transcribe total,
    (run Sample.env
       (transcribe_audio Sample.env Sample.globals Sample.first_upload)
       Sample.world).1 = inr r /\
    field "processing_time" (body r) =
      Some (JObj [("transcribe", JNum transcribe); ("total", JNum total)]) /\
    0 <= transcribe <= total.
Proof.
  apply (processing_time_ordered Sample.env Sample.globals Sample.first_upload
           (mkFileStorage "a.wav" "audio/wav" [Byte.x01])
           (mkResult "hello" [] "en") Sample.world);
    [intros n m H; cbn; lia | reflexivity | discriminate | reflexivity
    | reflexivity | reflexivity | reflexivity].
Defined.

(** X7. A successful transcription is lost when the file cannot be removed:
    the engine returned a result, [os.remove] of line 124 raises [e], and
    the answer is 500 with the message of [e] and no [text]; the second
    attempt of lines 147-152 is refused as well and the upload stays. *)
Theorem removal_failure_500 (env : Env) (g : Globals) (request : Request)
    (file : FileStorage) (result : TranscriptionResult) (e : Exn) (w : World) :
  files request !! "file" = Some file ->
  filename file <> "" ->
  allowed_file (filename file) = true ->
  save_outcome env (stored_path env file) = SaveWrites ->
  engine env (model g) (stored_path env file) (Some (stream file)) = inr result ->
  remove_refused env (stored_path env file) = Some e ->
  exists r w',
    run env (transcribe_audio env g request) w = (inr r, w') /\
    status r = 500 /\
    field "error" (body r) = Some (JStr (str_exn e)) /\
    field "text" (body r) = None /\
    engine_log w' = (engine_log w ++ [stored_path env file])%list /\
    fs_files w' !! stored_path env file = Some (stream file).
Proof.
  intros Hf Hn Ha Hs He Hr.
  rewrite (transcribe_audio_valid env g request file w Hf Hn Ha).
  rewrite run_try_except.
  destruct (run_transcribe_audio_try env g file (clock env (ticks w)) (tick w) Hs)
    as (w1 & ts & Hfiles & Hlog & ->).
  rewrite He, Hr. cbn in Hfiles, Hlog.
  destruct (run_transcribe_audio_except env (stored_path env file) e (tick w1))
    as (w' & -> & _ & Hl' & Hf').
  cbn in Hl', Hf'. rewrite Hfiles, lookup_insert_eq, Hr in Hf'.
  eexists _, _. split; [reflexivity|]. repeat split.
  - now rewrite Hl'.
  - rewrite Hf'. apply lookup_insert_eq.
Qed.

Lemma removal_failure_500_witness :
  exists r w',
    run Faulty.env_remove_refused
      (transcribe_audio Faulty.env_remove_refused Sample.globals
         Sample.first_upload) Sample.world = (inr r, w') /\
    status r = 500 /\
    field "error" (body r) = Some (JStr "uploads/a.wav") /\
    field "text" (body r) = None /\
    engine_log w' = ["uploads/a.wav"] /\
    fs_files w' !! "uploads/a.wav" = Some [Byte.x01].
Proof.
  apply (removal_failure_500 Faulty.env_remove_refused Sample.globals
           Sample.first_upload
           (mkFileStorage "a.wav" "audio/wav" [Byte.x01])
           (mkResult "hello" [] "en")
           (mkExn "PermissionError" "uploads/a.wav") Sample.world);
    [reflexivity | discriminate | reflexivity | reflexivity | reflexivity
    | reflexivity].
Defined.



(** X9. When [file.save] returns but nothing is at the stored path
    afterwards, the check of lines 110-114 raises [FileNotFoundError]: the
    answer is 500, its message names the path, the engine is not called and
    no file is created. *)
Theorem save_lost_500 (env : Env) (g : Globals) (request : Request)
    (file : FileStorage) (w : World) :
  files request !! "file" = Some file ->
  filename file <> "" ->
  allowed_file (filename file) = true ->
  save_outcome env (stored_path env file) = SaveLost ->
  path_exists (stored_path env file) w = false ->
  exists r w',
    run env (transcribe_audio env g request) w = (inr r, w') /\
    status r = 500 /\
    field "error" (body r) =
      Some (JStr ("파일이 저장되지 않았습니다: " ++ stored_path env file)) /\
    engine_log w' = engine_log w /\
    fs_files w' = fs_files w.
Proof.
  intros Hf Hn Ha Hs Hp.
  rewrite (transcribe_audio_valid env g request file w Hf Hn Ha).
  rewrite run_try_except.
  assert (Hp' : path_exists (stored_path env file)
                  (set_dirs ({[UPLOAD_FOLDER]} ∪ fs_dirs w) (tick w)) = false).
  { rewrite <- Hp. unfold path_exists. cbn. f_equal. apply bool_decide_ext.
    pose proof (stored_path_not_folder env file) as Hne.
    rewrite elem_of_union, elem_of_singleton. tauto. }
  assert (Htry : exists w1,
    run env (transcribe_audio_try g file (stored_path env file)
               (clock env (ticks w))) (tick w) =
      (inl (mkExn "FileNotFoundError"
              ("파일이 저장되지 않았습니다: " ++ stored_path env file)), w1) /\
    fs_files w1 = fs_files w /\ engine_log w1 = engine_log w /\
    path_exists (stored_path env file) w1 = false).
  { unfold transcribe_audio_try. cbn.
    destruct (path_exists UPLOAD_FOLDER (tick w)) eqn:E; cbn;
      [|unfold os_makedirs; cbn; rewrite E; cbn];
      unfold file_save; rewrite Hs; cbn.
    - change (path_exists (stored_path env file) (tick w))
        with (path_exists (stored_path env file) w).
      rewrite Hp. cbn. eexists. repeat split. exact Hp.
    - rewrite Hp'. cbn. eexists. repeat split. exact Hp'. }
  destruct Htry as (w1 & -> & Hfiles & Hlog & Hp1).
  destruct (run_transcribe_audio_except env (stored_path env file)
              (mkExn "FileNotFoundError"
                 ("파일이 저장되지 않았습니다: " ++ stored_path env file)) w1)
    as (w' & -> & _ & Hl' & Hf').
  assert (Hnone : fs_files w1 !! stored_path env file = None).
  { unfold path_exists in Hp1. apply orb_false_iff in Hp1 as [Hp1 _].
    apply bool_decide_eq_false in Hp1.
    destruct (fs_files w1 !! stored_path env file); [|reflexivity].
    exfalso. apply Hp1. eauto. }
  rewrite Hnone, Hfiles in Hf'. rewrite Hlog in Hl'.
  eexists _, _. split; [reflexivity|]. repeat split; assumption.
Qed.

Lemma save_lost_500_witness :
  exists r w',
    run Faulty.env_save_lost
      (transcribe_audio Faulty.env_save_lost Sample.globals
         Sample.first_upload) Sample.world = (inr r, w') /\
    status r = 500 /\
    field "error" (body r) =
      Some (JStr ("파일이 저장되지 않았습니다: " ++ "uploads/a.wav")) /\
    engine_log w' = [] /\
    fs_files w' = ∅.
Proof.
  apply (save_lost_500 Faulty.env_save_lost Sample.globals Sample.first_upload
           (mkFileStorage "a.wav" "audio/wav" [Byte.x01]) Sample.world);
    [reflexivity | discriminate | reflexivity | reflexivity | reflexivity].
Defined.


(** X11. The footprint of one [/transcribe] request, whatever happens to
    it: no file other than the one at its stored path is created, changed
    or removed; the only directory it can create is the upload folder, and
    only when that is missing; the engine is called at most once, on the
    stored path. *)
Theorem transcribe_footprint (env : Env) (g : Globals) (request : Request)
    (w : World) :
  let w' := (run env (transcribe_audio env g request) w).2 in
  (forall q,
     (forall file, files request !! "file" = Some file ->
                   q <> stored_path env file) ->
     fs_files w' !! q = fs_files w !! q) /\
  (fs_dirs w' = fs_dirs w \/
   path_exists UPLOAD_FOLDER w = false /\
   fs_dirs w' = {[UPLOAD_FOLDER]} ∪ fs_dirs w) /\
  (engine_log w' = engine_log w \/
   exists file, files request !! "file" = Some file /\
     engine_log w' = (engine_log w ++ [stored_path env file])%list).
Proof.
  destruct (transcribe_audio_facts env g request w)
    as (r & w' & -> & Hlog & Hdirs & Hframe & _).
  cbn. split; [|split; assumption].
  intros q Hq. apply Hframe. intros (file & Hf & ->). now apply (Hq file).
Qed.

Lemma transcribe_footprint_witness :
  fs_files (run Sample.env
     (transcribe_audio Sample.env Sample.globals Sample.first_upload)
     (set_files {["uploads/b.wav" := [Byte.x07]]} Sample.world)).2
    !! "uploads/b.wav" = Some [Byte.x07].
Proof.
  pose proof (proj1 (transcribe_footprint Sample.env Sample.globals
    Sample.first_upload
    (set_files {["uploads/b.wav" := [Byte.x07]]} Sample.world))
    "uploads/b.wav") as H.
  cbv zeta in H. rewrite H; [reflexivity|].
  intros file [= <-]. discriminate.
Defined.

(** X12. Every request that passes the checks leaves nothing behind,
    whatever [file.save] and the engine did, as long as the removal is not
    refused: when the view function returns there is no file at the stored
    path, not even one that was there before the request. *)
Theorem no_file_left_at_stored_path (env : Env) (g : Globals)
    (request : Request) (file : FileStorage) (w : World) :
  files request !! "file" = Some file ->
  filename file <> "" ->
  allowed_file (filename file) = true ->
  remove_refused env (stored_path env file) = None ->
  fs_files (run env (transcribe_audio env g request) w).2
    !! stored_path env file = None.
Proof.
  intros Hf Hn Ha Hr.
  rewrite (transcribe_audio_valid env g request file w Hf Hn Ha).
  rewrite run_try_except.
  destruct (transcribe_audio_try_facts env g file (clock env (ticks w)) (tick w))
    as (out & w1 & -> & _ & _ & _ & Hout).
  destruct out as [e|r]; [|exact Hout].
  destruct (run_transcribe_audio_except env (stored_path env file) e w1)
    as (w' & -> & _ & _ & Hf').
  cbn. rewrite Hf', Hr.
  destruct (fs_files w1 !! stored_path env file) eqn:E;
    [apply lookup_delete_eq | exact E].
Qed.

Lemma no_file_left_at_stored_path_witness :
  fs_files (run Faulty.env_save_lost
     (transcribe_audio Faulty.env_save_lost Sample.globals Sample.first_upload)
     (set_files {["uploads/a.wav" := [Byte.x07]]} Sample.world)).2
    !! "uploads/a.wav" = None.
Proof.
  apply (no_file_left_at_stored_path Faulty.env_save_lost Sample.globals
           Sample.first_upload
           (mkFileStorage "a.wav" "audio/wav" [Byte.x01])
           (set_files {["uploads/a.wav" := [Byte.x07]]} Sample.world));
    [reflexivity | discriminate | reflexivity | reflexivity].
Defined.

(** ** Requests one after the other *)

Lemma serve_files_shrink (env : Env) (r : HttpRequest) (s : Server) :
  (forall p, remove_refused env p = None) ->
  forall q c,
    fs_files (world (serve env r s).2) !! q = Some c ->
    fs_files (world s) !! q = Some c.
Proof.
  intros Hr q c. unfold serve. destruct r as [request|]; cbn [dispatch].
  - destruct (transcribe_audio_facts env (globals s) request (world s))
      as (r & w' & -> & _ & _ & Hframe & Hat).
    cbn. intros Hq.
    destruct (files request !! "file") as [file|] eqn:Hf.
    + destruct (decide (q = stored_path env file)) as [->|Hne].
      * destruct (Hat file eq_refl (Hr _)) as [Hnone | Hsame];
          [congruence | now rewrite <- Hsame].
      * rewrite <- Hframe; [exact Hq|]. intros (file' & Hf' & ->).
        rewrite Hf in Hf'. injection Hf' as <-. auto.
    + rewrite <- Hframe; [exact Hq|]. intros (file' & Hf' & _).
      rewrite Hf in Hf'. discriminate Hf'.
  - rewrite run_health_check. cbn. auto.
Qed.

(** X13. A file system that does not refuse removals never fills up: after
    any sequence of requests, every file in storage was there before the
    first of them, with the same bytes. *)
Theorem storage_never_grows (env : Env) (rs : list HttpRequest) (s : Server) :
  (forall p, remove_refused env p = None) ->
  forall q c,
    fs_files (world (serve_all env rs s).2) !! q = Some c ->
    fs_files (world s) !! q = Some c.
Proof.
  intros Hr. revert s. induction rs as [|r rs IH]; intros s q c; cbn; [auto|].
  pose proof (serve_files_shrink env r s Hr q c) as Hstep.
  destruct (serve env r s) as [out s']. specialize (IH s' q c).
  destruct (serve_all env rs s') as [outs s'']. cbn in *. auto.
Qed.

Lemma storage_never_grows_witness :
  fs_files (world (serve_all Sample.env
     [POST_transcribe Sample.first_upload; GET_health;
      POST_transcribe Sample.text_upload; POST_transcribe Sample.second_upload]
     (mkServer Sample.globals Sample.world)).2) = ∅.
Proof.
  apply map_empty. intros q.
  destruct (fs_files _ !! q) as [c|] eqn:E; [|reflexivity].
  apply (storage_never_grows Sample.env _ (mkServer Sample.globals Sample.world))
    in E; [|reflexivity].
  cbn in E. rewrite lookup_empty in E. discriminate E.
Defined.



(** ** Start-up and uptime *)






(** ** Requests at the same time *)

Section Schedules.

Context (env : Env).

Lemma thread_step_all (Qop : forall X : Type, Op X -> Prop)
    (Qret : Response -> Prop) (Qraise : Exn -> Prop)
    (t t' : Thread) (w w' : World) :
  thread_all Qop Qret Qraise t ->
  thread_step env t w t' w' ->
  thread_all Qop Qret Qraise t'.
Proof.
  intros Hall Hstep. destruct Hstep; cbn in *; try assumption.
  - apply Hall.
  - apply Hall.
Qed.

(** An invariant of each thread is an invariant of the pool. *)
Lemma steps_indexed (I : nat -> Thread -> Prop) (s s' : list Thread * World) :
  (forall i t w t' w', I i t -> thread_step env t w t' w' -> I i t') ->
  rtc (step env) s s' ->
  (forall i t, s.1 !! i = Some t -> I i t) ->
  (forall i t, s'.1 !! i = Some t -> I i t).
Proof.
  intros Hpres Hsteps.
  induction Hsteps as [s|s1 s2 s3 H12 _ IH]; [auto|].
  intros H1. apply IH. clear IH.
  destruct H12 as [j t0 t0' pool w w' Hj Hstep]. cbn in *.
  intros i t Hi. apply list_lookup_insert_Some in Hi
    as [(-> & <- & _) | (Hne & Hi)].
  - eapply Hpres; [apply (H1 i t0 Hj) | exact Hstep].
  - apply (H1 i t Hi).
Qed.

Lemma thread_step_frame (paths : string -> Prop) (t t' : Thread)
    (w w' : World) (q : string) :
  thread_all (touches_only paths) (fun _ => True) (fun _ => True) t ->
  thread_step env t w t' w' ->
  ~ paths q ->
  fs_files w' !! q = fs_files w !! q.
Proof.
  intros Hall Hstep Hq. destruct Hstep; cbn in *; try reflexivity.
  apply (exec_op_touches_only env paths o w q); [apply Hall | exact Hq].
Qed.

Lemma steps_frame (paths : string -> Prop) (s s' : list Thread * World)
    (q : string) :
  rtc (step env) s s' ->
  (forall i t, s.1 !! i = Some t ->
     thread_all (touches_only paths) (fun _ => True) (fun _ => True) t) ->
  ~ paths q ->
  fs_files s'.2 !! q = fs_files s.2 !! q.
Proof.
  intros Hsteps Hall Hq.
  induction Hsteps as [s|s1 s2 s3 H12 H23 IH]; [reflexivity|].
  assert (Hall2 : forall i t, s2.1 !! i = Some t ->
            thread_all (touches_only paths) (fun _ => True) (fun _ => True) t).
  { apply (steps_indexed
             (fun _ => thread_all (touches_only paths) (fun _ => True)
                         (fun _ => True)) s1 s2);
      [intros i t w t' w'; apply thread_step_all
      | now apply rtc_once | exact Hall]. }
  rewrite (IH Hall2).
  destruct H12 as [j t0 t0' pool w w' Hj Hstep]. cbn in *.
  eapply thread_step_frame; [apply (Hall j t0 Hj) | exact Hstep | exact Hq].
Qed.

Lemma spawn_lookup (g : Globals) (rs : list HttpRequest) (i : nat)
    (t : Thread) :
  spawn env g rs !! i = Some t ->
  exists r, rs !! i = Some r /\ t = Running (dispatch env g r).
Proof.
  unfold spawn. rewrite list_lookup_fmap.
  destruct (rs !! i) as [r|]; cbn; [|discriminate].
  intros [= <-]. eauto.
Qed.

End Schedules.

(** X17. Under every interleaving of any number of requests, a file is
    created, changed or removed only at the stored path of one of the
    [/transcribe] requests in the pool; every other file stays as it was. *)
Theorem concurrent_footprint (env : Env) (g : Globals)
    (rs : list HttpRequest) (w : World) (pool' : list Thread) (w' : World)
    (q : string) :
  rtc (step env) (spawn env g rs, w) (pool', w') ->
  (forall request file,
     POST_transcribe request ∈ rs ->
     files request !! "file" = Some file ->
     q <> stored_path env file) ->
  fs_files w' !! q = fs_files w !! q.
Proof.
  intros Hsteps Hq.
  apply (steps_frame env (fun p => exists r, r ∈ rs /\ request_paths env r p)
           (spawn env g rs, w) (pool', w') q Hsteps).
  - intros i t Hi. apply spawn_lookup in Hi as (r & Hr & ->). cbn.
    eapply prog_all_weaken; [| | |apply (dispatch_touches env g r)]; auto.
    intros X o. destruct o; cbn; auto; intros Hp; exists r;
      (split; [eapply list_elem_of_lookup_2; eauto | exact Hp]).
  - intros (r & Hr & Hp). destruct r as [request|]; cbn in Hp; [|exact Hp].
    destruct Hp as (file & Hf & ->). now apply (Hq request file).
Qed.

Lemma concurrent_footprint_witness :
  fs_files (run Sample.env
     (dispatch Sample.env Sample.globals (POST_transcribe Sample.first_upload))
     (set_files {["uploads/b.wav" := [Byte.x07]]} Sample.world)).2
    !! "uploads/b.wav" = Some [Byte.x07].
Proof.
  rewrite (concurrent_footprint Sample.env Sample.globals
             [POST_transcribe Sample.first_upload; GET_health;
              POST_transcribe Sample.second_upload]
             (set_files {["uploads/b.wav" := [Byte.x07]]} Sample.world)
             _ _ "uploads/b.wav"
             (run_steps Sample.env
                (dispatch Sample.env Sample.globals
                   (POST_transcribe Sample.first_upload))
                0%nat
                (spawn Sample.env Sample.globals
                   [POST_transcribe Sample.first_upload; GET_health;
                    POST_transcribe Sample.second_upload])
                (set_files {["uploads/b.wav" := [Byte.x07]]} Sample.world)
                eq_refl)); [reflexivity|].
  intros request file Hin Hf.
  apply list_elem_of_In in Hin. cbn in Hin.
  destruct Hin as [[= <-] | [[=] | [[= <-] | []]]];
    cbn in Hf; injection Hf as <-; discriminate.
Defined.



(** X19. Under every interleaving, a request that fails one of the three
    checks never occupies the engine, and once finished it has answered
    400. *)
Theorem rejected_never_in_engine (env : Env) (g : Globals)
    (rs : list HttpRequest) (w : World) (pool' : list Thread) (w' : World)
    (i : nat) (request : Request) (t : Thread) :
  rs !! i = Some (POST_transcribe request) ->
  (files request !! "file" = None \/
   exists file, files request !! "file" = Some file /\
     (filename file = "" \/ allowed_file (filename file) = false)) ->
  rtc (step env) (spawn env g rs, w) (pool', w') ->
  pool' !! i = Some t ->
  in_engine t = false /\
  forall out, t = Finished out -> exists r, out = inr r /\ status r = 400.
Proof.
  intros Hi Hbad Hsteps Ht.
  pose proof (steps_indexed env
    (fun j t => j = i ->
       thread_all not_engine (fun r => status r = 400) (fun _ => False) t)
    (spawn env g rs, w) (pool', w')
    ltac:(intros j t0 w1 t' w2 H0 Hs Hj; eapply thread_step_all; eauto)
    Hsteps) as H.
  cbn in H.
  assert (Hinv : thread_all not_engine (fun r => status r = 400)
                   (fun _ => False) t).
  { apply (H ltac:(intros j t0 Hj ->;
                   apply spawn_lookup in Hj as (r & Hr & ->);
                   rewrite Hi in Hr; injection Hr as <-;
                   now apply transcribe_audio_rejected_no_engine)
             i t Ht eq_refl). }
  destruct t as [p|m path k|[e|r]]; cbn in Hinv |- *.
  - split; [reflexivity | discriminate].
  - destruct Hinv as [Hinv _]. discriminate Hinv.
  - contradiction.
  - split; [reflexivity|]. intros out [= <-]. eauto.
Qed.

Lemma rejected_never_in_engine_witness :
  in_engine
    (Finished (run Sample.env
       (transcribe_audio Sample.env Sample.globals Sample.text_upload)
       Sample.world).1) = false.
Proof.
  refine (proj1 (rejected_never_in_engine Sample.env Sample.globals
           [POST_transcribe Sample.first_upload;
            POST_transcribe Sample.text_upload] Sample.world
           (<[1%nat := Finished (run Sample.env
                (transcribe_audio Sample.env Sample.globals Sample.text_upload)
                Sample.world).1]>
              (spawn Sample.env Sample.globals
                 [POST_transcribe Sample.first_upload;
                  POST_transcribe Sample.text_upload]))
           (run Sample.env
              (transcribe_audio Sample.env Sample.globals Sample.text_upload)
              Sample.world).2
           1%nat Sample.text_upload _ eq_refl _ _ _)).
  - right. eexists. split; [reflexivity|]. right. reflexivity.
  - exact (run_steps Sample.env
             (transcribe_audio Sample.env Sample.globals Sample.text_upload)
             1%nat
             (spawn Sample.env Sample.globals
                [POST_transcribe Sample.first_upload;
                 POST_transcribe Sample.text_upload])
             Sample.world eq_refl).
  - reflexivity.
Defined.

(** X20. Two requests whose uploads are stored at the same path interfere:
    there is an interleaving in which the first request is inside the
    engine while the file at its path already holds the bytes of the second
    upload, so that the engine call of the first request returns what the
    engine makes of the second upload. *)
Theorem same_path_uploads_interfere (env : Env) (g : Globals)
    (request1 request2 : Request) (file1 file2 : FileStorage) (w : World) :
  files request1 !! "file" = Some file1 ->
  files request2 !! "file" = Some file2 ->
  filename file1 <> "" -> filename file2 <> "" ->
  allowed_file (filename file1) = true ->
  allowed_file (filename file2) = true ->
  save_outcome env (stored_path env file1) = SaveWrites ->
  stored_path env file1 = stored_path env file2 ->
  exists k1 k2 w',
    rtc (step env)
      (spawn env g [POST_transcribe request1; POST_transcribe request2], w)
      ([InEngine (model g) (stored_path env file1) k1;
        InEngine (model g) (stored_path env file1) k2], w') /\
    fs_files w' !! stored_path env file1 = Some (stream file2) /\
    step env
      ([InEngine (model g) (stored_path env file1) k1;
        InEngine (model g) (stored_path env file1) k2], w')
      ([Running (k1 (engine env (model g) (stored_path env file1)
                       (Some (stream file2))));
        InEngine (model g) (stored_path env file1) k2], w').
Proof.
  intros Hf1 Hf2 Hn1 Hn2 Ha1 Ha2 Hs1 Hp.
  assert (Hs2 : save_outcome env (stored_path env file2) = SaveWrites)
    by now rewrite <- Hp.
  destruct (transcribe_audio_to_engine env g request1 file1 w Hf1 Hn1 Ha1 Hs1)
    as (k1 & w1 & Hrun1 & Hfiles1).
  destruct (transcribe_audio_to_engine env g request2 file2 w1 Hf2 Hn2 Ha2 Hs2)
    as (k2 & w2 & Hrun2 & Hfiles2).
  rewrite <- Hp in Hrun2, Hfiles2.
  assert (Hbytes : fs_files w2 !! stored_path env file1 = Some (stream file2))
    by (rewrite Hfiles2; apply lookup_insert_eq).
  exists k1, k2, w2. split; [|split; [exact Hbytes|]].
  - eapply rtc_trans.
    + pose proof (run_to_engine_steps env (transcribe_audio env g request1)
        0%nat (spawn env g [POST_transcribe request1; POST_transcribe request2])
        w eq_refl) as H.
      rewrite Hrun1 in H. exact H.
    + pose proof (run_to_engine_steps env (transcribe_audio env g request2)
        1%nat
        [InEngine (model g) (stored_path env file1) k1;
         Running (transcribe_audio env g request2)] w1 eq_refl) as H.
      rewrite Hrun2 in H. exact H.
  - pose proof (step_thread env 0%nat _ _
      [InEngine (model g) (stored_path env file1) k1;
       InEngine (model g) (stored_path env file1) k2] w2 w2 eq_refl
      (step_engine_leave env (model g) (stored_path env file1) k1 w2)) as H.
    rewrite Hbytes in H. exact H.
Qed.

Lemma same_path_uploads_interfere_witness :
  exists k1 k2 w',
    rtc (step Sample.env)
      (spawn Sample.env Sample.globals
         [POST_transcribe Sample.first_upload;
          POST_transcribe Sample.second_upload], Sample.world)
      ([InEngine (model Sample.globals) "uploads/a.wav" k1;
        InEngine (model Sample.globals) "uploads/a.wav" k2], w') /\
    fs_files w' !! "uploads/a.wav" = Some [Byte.x02; Byte.x03].
Proof.
  destruct (same_path_uploads_interfere Sample.env Sample.globals
              Sample.first_upload Sample.second_upload
              (mkFileStorage "a.wav" "audio/wav" [Byte.x01])
              (mkFileStorage "a.wav" "audio/wav" [Byte.x02; Byte.x03])
              Sample.world)
    as (k1 & k2 & w' & Hsteps & Hbytes & _);
    [reflexivity | reflexivity | discriminate | discriminate | reflexivity
    | reflexivity | reflexivity | reflexivity |].
  exists k1, k2, w'. split; assumption.
Defined.
